(** * Cognito sign-in orchestration: a shallow embedding

    The development follows three source files of the auth package:

    - [providers/cognito/apis/signInWithUserPassword.ts]
    - the sibling entry point [signInWithCustomSRPAuth]
    - [resetPassword] of the earlier provider layout

    Asynchronous functions are read as computations in a state-and-exception
    monad: a single logical flow of control, every [await] a sequencing
    point.  The state survives an exception, as it does in JavaScript. *)

From stdpp Require Import base option strings list gmap.

Set Default Proof Using "Type".

(** ** Thrown values *)

(** [AuthValidationErrorCode], restricted to the two members the sign-in
    entry points use. *)
Inductive AuthValidationErrorCode : Type :=
| EmptySignInUsername
| EmptySignInPassword.

(** What a [throw] or a rejected promise may carry. *)
Inductive Thrown : Type :=
| Rejected (name message : string)
    (* an error object a collaborator or the service client rejected with *)
| RejectedNull
    (* a rejection that carries [null] or [undefined] *)
| AuthValidationError (code : AuthValidationErrorCode)
    (* the [AuthError] of [assertValidationError] *)
| AuthTokenConfigException
    (* the [AuthError] of [assertTokenProviderConfig] *)
| SignInException (challengeName : option string)
    (* the [AuthError] of [getSignInResult] for a challenge it does not address *)
| UnknownError (underlyingError : Thrown).
    (* the [AuthError] of [assertServiceError] *)

Definition validationErrorName (code : AuthValidationErrorCode) : string :=
  match code with
  | EmptySignInUsername => "EmptySignInUsername"
  | EmptySignInPassword => "EmptySignInPassword"
  end.

(** [error.name]; only read on values [assertServiceError] let through, which
    are never [null]. *)
Definition errorName (error : Thrown) : string :=
  match error with
  | Rejected name _ => name
  | RejectedNull => ""
  | AuthValidationError code => validationErrorName code
  | AuthTokenConfigException => "AuthTokenConfigException"
  | SignInException _ => "SignInException"
  | UnknownError _ => "Unknown"
  end.

Definition isNull (error : Thrown) : bool :=
  match error with
  | RejectedNull => true
  | _ => false
  end.

(** [!!s] on a string. *)
Definition truthy (s : string) : bool := bool_decide (s ≠ "").

(** [o?.f] for an optional member [f]. *)
Definition optionalChain {A B} (o : option A) (f : A → option B) : option B :=
  match o with
  | Some a => f a
  | None => None
  end.

(** ** Data of the sign-in exchange *)

Record CognitoConfig : Type := {
  userPoolId : string;
  userPoolClientId : string;
}.

Record CognitoAuthSignInDetails : Type := {
  loginId : string;
  authFlowType : string;
}.

Record SignInOptions : Type := {
  clientMetadata : option (gmap string string);
}.

Record SignInInput : Type := {
  username : string;
  password : string;
  options : option SignInOptions;
}.

Record NewDeviceMetadataType : Type := {
  DeviceKey : option string;
  DeviceGroupKey : option string;
}.

Record AuthenticationResultType : Type := {
  AccessToken : option string;
  IdToken : option string;
  RefreshToken : option string;
  TokenType : option string;
  ExpiresIn : option Z;
  NewDeviceMetadata : option NewDeviceMetadataType;
}.

(** The shape both [initiateAuth] and [respondToAuthChallenge] answer with;
    every field is optional. *)
Record AuthResponse : Type := {
  ChallengeName : option string;
  ChallengeParameters : option (gmap string string);
  AuthenticationResult : option AuthenticationResultType;
  Session : option string;
}.

Record DeviceMetadata : Type := {
  deviceKey : option string;
  deviceGroupKey : option string;
  randomPassword : string;
}.

(** The argument of [cacheCognitoTokens]:
    [{...AuthenticationResult, username, NewDeviceMetadata, signInDetails}].
    [tokens] is the spread object; its own [NewDeviceMetadata] is shadowed by
    [cachedDeviceMetadata].  [AuthenticationResultType] has no [username]
    member, so the two entry points, which spread and set [username] in
    opposite orders, build the same object. *)
Record CacheInput : Type := {
  tokens : AuthenticationResultType;
  cachedUsername : string;
  cachedDeviceMetadata : option DeviceMetadata;
  cachedSignInDetails : CognitoAuthSignInDetails;
}.

(** What [setActiveSignInState] receives. *)
Record SignInState : Type := {
  signInSession : option string;
  activeUsername : string;
  challengeName : option string;
  signInDetails : CognitoAuthSignInDetails;
}.

Record AuthNextSignInStep : Type := {
  signInStep : string;
  stepParameters : gmap string string;
}.

Record SignInOutput : Type := {
  isSignedIn : bool;
  nextStep : AuthNextSignInStep;
}.

(** [{isSignedIn: true, nextStep: {signInStep: 'DONE'}}] *)
Definition signedInDone : SignInOutput :=
  {| isSignedIn := true;
     nextStep := {| signInStep := "DONE"; stepParameters := ∅ |} |}.

Record AuthUser : Type := {
  currentUsername : string;
  userId : string;
}.

(** The argument array
    [[username, password, metadata, authConfig, tokenOrchestrator]]; the token
    orchestrator is the process-wide singleton and lives in the external
    state. *)
Record FlowArgs : Type := {
  argUsername : string;
  argPassword : string;
  argClientMetadata : option (gmap string string);
  argAuthConfig : CognitoConfig;
}.

(** One row of the challenge-to-next-step table: the caller-facing tag and the
    challenge parameters that may be shown to the caller. *)
Record NextStepEntry : Type := {
  stepTag : string;
  exposedKeys : gset string;
}.

(** Observable interactions, in the order they happen. *)
Inductive Event : Type :=
| EvRequest (flow : string) (args : FlowArgs)
| EvClearDeviceMetadata (user : string)
| EvCacheTokens (input : CacheInput)
| EvHubDispatch (channel event : string) (data : AuthUser).

(** ** Collaborators

    What the entry points import from other modules of the package and from
    the core package: the flow handlers behind the RPC client, the token
    orchestrator, the token cache, [getCurrentUser], and the static tables.  [W] is the
    state those collaborators own (service, token storage, device records).
    The flow handlers may also touch the active sign-in state. *)
Class CognitoEnv (W : Type) : Type := {
  handleUserPasswordAuthFlow :
    FlowArgs → option SignInState * W →
    (Thrown + AuthResponse) * (option SignInState * W);
  handleCustomSRPAuthFlow :
    FlowArgs → option SignInState * W →
    (Thrown + AuthResponse) * (option SignInState * W);
  (* tokenOrchestrator.clearDeviceMetadata(username) *)
  clearDeviceMetadata : string → W → W;
  getNewDeviceMetatada :
    string → option NewDeviceMetadataType → option string →
    W → (Thrown + option DeviceMetadata) * W;
  cacheCognitoTokens : CacheInput → W → (Thrown + unit) * W;
  getCurrentUser : W → (Thrown + AuthUser) * W;
  (* the username the attempt goes by, given the store and the typed name *)
  getActiveSignInUsername : option SignInState → string → string;
  (* the test behind assertTokenProviderConfig, on a present configuration *)
  isTokenProviderConfig : CognitoConfig → bool;
  (* the test behind assertServiceError, on a value that is not null *)
  isServiceError : Thrown → bool;
  (* the static challenge-to-next-step table *)
  challengeNextStep : gmap string NextStepEntry;
  (* the service error names that stand for a continuation *)
  signInErrorSteps : gmap string SignInOutput;
}.

Section SignIn.
Context {W : Type} `{Env : CognitoEnv W}.

Record World : Type := {
  signInStore : option SignInState;     (* the active sign-in state slot *)
  amplifyConfig : option CognitoConfig; (* Amplify.getConfig().Auth?.Cognito *)
  ext : W;
  trace : list Event;
}.

(** *** The monad of asynchronous code *)

Definition M (A : Type) : Type := World → (Thrown + A) * World.

Definition ret {A} (a : A) : M A := λ w, (inr a, w).

Definition throw {A} (error : Thrown) : M A := λ w, (inl error, w).

Definition bind {A B} (k : A → M B) (m : M A) : M B :=
  λ w, match m w with
       | (inl error, w') => (inl error, w')
       | (inr a, w') => k a w'
       end.

Definition tryCatch {A} (body : M A) (handler : Thrown → M A) : M A :=
  λ w, match body w with
       | (inl error, w') => handler error w'
       | (inr a, w') => (inr a, w')
       end.

(** A [try] block of an asynchronous function that ends in [return e].  What
    it hands back is a value, or a promise it did not await; only what is
    thrown inside the block reaches the handler.  A promise that was
    returned without [await] settles the call directly: if it rejects, the
    call rejects with the same value and the handler is not run. *)
Definition tryCatchReturn {A}
    (body : M (Thrown + A)) (handler : Thrown → M A) : M A :=
  λ w, match body w with
       | (inl error, w') => handler error w'
       | (inr (inr a), w') => (inr a, w')
       | (inr (inl error), w') => (inl error, w')
       end.

(** [return a] for a value [a]. *)
Definition returnValue {A} (a : A) : M (Thrown + A) := ret (inr a).

(** [return p] for the promise [p] of an asynchronous call: the call runs,
    and its outcome is handed back rather than thrown. *)
Definition returnPromise {A} (promise : M A) : M (Thrown + A) :=
  λ w, let '(r, w') := promise w in (inr r, w').

#[local] Instance M_ret : MRet M := @ret.
#[local] Instance M_bind : MBind M := @bind.

Definition emit (ev : Event) : M unit :=
  λ w, (inr (),
        {| signInStore := signInStore w; amplifyConfig := amplifyConfig w;
           ext := ext w; trace := trace w ++ [ev] |}).

(** A collaborator that only touches the external state. *)
Definition external {A} (f : W → (Thrown + A) * W) : M A :=
  λ w, let '(r, e) := f (ext w) in
       (r, {| signInStore := signInStore w; amplifyConfig := amplifyConfig w;
              ext := e; trace := trace w |}).

(** A flow handler also reaches the active sign-in state. *)
Definition runHandler {A}
    (f : option SignInState * W → (Thrown + A) * (option SignInState * W))
    : M A :=
  λ w, let '(r, (s, e)) := f (signInStore w, ext w) in
       (r, {| signInStore := s; amplifyConfig := amplifyConfig w;
              ext := e; trace := trace w |}).

(** One invocation of a flow handler; the invocation is recorded. *)
Definition callFlow (flow : string)
    (handler : FlowArgs → option SignInState * W →
               (Thrown + AuthResponse) * (option SignInState * W))
    (args : FlowArgs) : M AuthResponse :=
  emit (EvRequest flow args) ;;
  runHandler (handler args).

Definition getCognitoConfig : M (option CognitoConfig) :=
  λ w, (inr (amplifyConfig w), w).

(** *** The active sign-in state store *)

(** Modelled from the spec: [setActiveSignInState] of [utils/signInStore].
    The store is a single slot; setting it replaces session, username and
    challenge together. *)
Definition setActiveSignInState (state : SignInState) : M unit :=
  λ w, (inr (),
        {| signInStore := Some state; amplifyConfig := amplifyConfig w;
           ext := ext w; trace := trace w |}).

(** Modelled from the spec: [cleanActiveSignInState] of
    [utils/signInStore]; it empties the slot. *)
Definition cleanActiveSignInState : M unit :=
  λ w, (inr (),
        {| signInStore := None; amplifyConfig := amplifyConfig w;
           ext := ext w; trace := trace w |}).

Definition readActiveSignInUsername (name : string) : M string :=
  λ w, (inr (getActiveSignInUsername (signInStore w) name), w).

(** *** Assertions *)

(** Modelled from the spec: [assertTokenProviderConfig] of the core
    package.  A missing configuration and one that fails the well-formedness
    test both raise the configuration error; otherwise the configuration is
    known to be present from here on. *)
Definition assertTokenProviderConfig
    (authConfig : option CognitoConfig) : M CognitoConfig :=
  match authConfig with
  | Some config =>
      if isTokenProviderConfig config then ret config
      else throw AuthTokenConfigException
  | None => throw AuthTokenConfigException
  end.

(** Modelled from the spec: [assertValidationError] of [errors/utils]; it
    raises the validation error named by [code] unless the assertion
    holds. *)
Definition assertValidationError
    (assertion : bool) (code : AuthValidationErrorCode) : M unit :=
  if assertion then ret () else throw (AuthValidationError code).

(** Modelled from the spec: [assertServiceError] of [errors/utils].  A value
    that is [null] or that is not a service error is replaced by an unknown
    error that keeps it as [underlyingError]. *)
Definition assertServiceError (error : Thrown) : M unit :=
  if isNull error || negb (isServiceError error)
  then throw (UnknownError error)
  else ret ().

(** *** Helpers of [utils/signInHelpers] *)

(** Modelled from the spec: [retryOnResourceNotFoundException] (section 4.3).
    [func] is invoked; when it fails with the resource-not-found error name
    the device context of [user] is cleared and [func] is invoked once
    more, whatever that second invocation yields being the outcome. *)
Definition retryOnResourceNotFoundException {A}
    (func : FlowArgs → M A) (args : FlowArgs) (user : string) : M A :=
  tryCatch (func args)
    (λ error,
       if negb (isNull error)
          && bool_decide (errorName error = "ResourceNotFoundException")
       then
         emit (EvClearDeviceMetadata user) ;;
         external (λ e, (inr (), clearDeviceMetadata user e)) ;;
         func args
       else throw error).

(** Modelled from the spec: [getSignInResult] (section 4.4).  The table
    gives the next-step tag of a supported challenge and the parameters
    that may be shown; any other challenge name, and a missing one, is the
    sign-in exception.  The function is asynchronous: its failure is a
    rejected promise. *)
Definition getSignInResult (name : option string)
    (parameters : option (gmap string string)) : M SignInOutput :=
  match name ≫= (challengeNextStep !!.) with
  | Some entry =>
      ret {| isSignedIn := false;
             nextStep :=
               {| signInStep := stepTag entry;
                  stepParameters :=
                    filter (λ kv, kv.1 ∈ exposedKeys entry)
                           (default ∅ parameters) |} |}
  | None => throw (SignInException name)
  end.

(** Modelled from the spec: [getSignInResultFromError] (section 4.1, step
    6): a lookup in the static table of benign error names. *)
Definition getSignInResultFromError (name : string) : option SignInOutput :=
  signInErrorSteps !! name.

(** *** Success hand-off *)

(** [await cacheCognitoTokens(input)], the call being recorded. *)
Definition callCacheCognitoTokens (input : CacheInput) : M unit :=
  emit (EvCacheTokens input) ;;
  external (cacheCognitoTokens input).

(** [Hub.dispatch('auth', {event: 'signedIn', data}, 'Auth', AMPLIFY_SYMBOL)] *)
Definition hubDispatchSignedIn (data : AuthUser) : M unit :=
  emit (EvHubDispatch "auth" "signedIn" data).

(** *** The entry points *)

(** [signInWithUserPassword], lines 49-128.  Every helper call of the
    [try] block is awaited or synchronous, except the last: line 117 returns
    the promise of [getSignInResult] as it is. *)
Definition signInWithUserPassword (input : SignInInput) : M SignInOutput :=
  let username := input.(username) in
  let password := input.(password) in
  let options := input.(options) in
  authConfig ← getCognitoConfig;
  let signInDetails :=
    {| loginId := username; authFlowType := "USER_PASSWORD_AUTH" |} in
  authConfig ← assertTokenProviderConfig authConfig;
  let metadata := optionalChain options clientMetadata in
  assertValidationError (truthy username) EmptySignInUsername ;;
  assertValidationError (truthy password) EmptySignInPassword ;;
  tryCatchReturn
    (response ←
       retryOnResourceNotFoundException
         (callFlow "USER_PASSWORD_AUTH" handleUserPasswordAuthFlow)
         {| argUsername := username; argPassword := password;
            argClientMetadata := metadata; argAuthConfig := authConfig |}
         username;
     activeUsername ← readActiveSignInUsername username;
     setActiveSignInState
       {| signInSession := response.(Session);
          activeUsername := activeUsername;
          challengeName := response.(ChallengeName);
          signInDetails := signInDetails |} ;;
     match response.(AuthenticationResult) with
     | Some result =>
         newDeviceMetadata ←
           external (getNewDeviceMetatada authConfig.(userPoolId)
                       result.(NewDeviceMetadata) result.(AccessToken));
         callCacheCognitoTokens
           {| tokens := result;
              cachedUsername := activeUsername;
              cachedDeviceMetadata := newDeviceMetadata;
              cachedSignInDetails := signInDetails |} ;;
         cleanActiveSignInState ;;
         currentUser ← external getCurrentUser;
         hubDispatchSignedIn currentUser ;;
         returnValue signedInDone
     | None =>
         returnPromise
           (getSignInResult response.(ChallengeName)
                            response.(ChallengeParameters))
     end)
    (λ error,
       cleanActiveSignInState ;;
       assertServiceError error ;;
       match getSignInResultFromError (errorName error) with
       | Some result => mret result
       | None => throw error
       end).

(** [signInWithCustomSRPAuth], lines 52-133 of its file.  The flow handler
    is awaited directly; this entry point does not go through
    [retryOnResourceNotFoundException].  Line 122 returns the promise of
    [getSignInResult] as it is. *)
Definition signInWithCustomSRPAuth (input : SignInInput) : M SignInOutput :=
  let username := input.(username) in
  let password := input.(password) in
  let options := input.(options) in
  let signInDetails :=
    {| loginId := username; authFlowType := "CUSTOM_WITH_SRP" |} in
  authConfig ← getCognitoConfig;
  authConfig ← assertTokenProviderConfig authConfig;
  let metadata := optionalChain options clientMetadata in
  assertValidationError (truthy username) EmptySignInUsername ;;
  assertValidationError (truthy password) EmptySignInPassword ;;
  tryCatchReturn
    (response ←
       callFlow "CUSTOM_WITH_SRP" handleCustomSRPAuthFlow
         {| argUsername := username; argPassword := password;
            argClientMetadata := metadata; argAuthConfig := authConfig |};
     activeUsername ← readActiveSignInUsername username;
     setActiveSignInState
       {| signInSession := response.(Session);
          activeUsername := activeUsername;
          challengeName := response.(ChallengeName);
          signInDetails := signInDetails |} ;;
     match response.(AuthenticationResult) with
     | Some result =>
         newDeviceMetadata ←
           external (getNewDeviceMetatada authConfig.(userPoolId)
                       result.(NewDeviceMetadata) result.(AccessToken));
         callCacheCognitoTokens
           {| tokens := result;
              cachedUsername := activeUsername;
              cachedDeviceMetadata := newDeviceMetadata;
              cachedSignInDetails := signInDetails |} ;;
         cleanActiveSignInState ;;
         currentUser ← external getCurrentUser;
         hubDispatchSignedIn currentUser ;;
         returnValue signedInDone
     | None =>
         returnPromise
           (getSignInResult response.(ChallengeName)
                            response.(ChallengeParameters))
     end)
    (λ error,
       cleanActiveSignInState ;;
       assertServiceError error ;;
       match getSignInResultFromError (errorName error) with
       | Some result => mret result
       | None => throw error
       end).

(** *** Vocabulary for the statements *)

Inductive Flow : Type := UserPassword | CustomSRP.

Definition signIn (flow : Flow) : SignInInput → M SignInOutput :=
  match flow with
  | UserPassword => signInWithUserPassword
  | CustomSRP => signInWithCustomSRPAuth
  end.

Definition flowType (flow : Flow) : string :=
  match flow with
  | UserPassword => "USER_PASSWORD_AUTH"
  | CustomSRP => "CUSTOM_WITH_SRP"
  end.

Definition flowArgs (input : SignInInput) (config : CognitoConfig) : FlowArgs :=
  {| argUsername := input.(username); argPassword := input.(password);
     argClientMetadata := optionalChain input.(options) clientMetadata;
     argAuthConfig := config |}.

Definition flowDetails (flow : Flow) (input : SignInInput)
    : CognitoAuthSignInDetails :=
  {| loginId := input.(username); authFlowType := flowType flow |}.

(** The initial request of an entry point as that entry point issues it:
    through the retry wrapper for the password flow, directly for the
    custom SRP flow. *)
Definition initialRequest (flow : Flow) (input : SignInInput)
    (config : CognitoConfig) : M AuthResponse :=
  match flow with
  | UserPassword =>
      retryOnResourceNotFoundException
        (callFlow "USER_PASSWORD_AUTH" handleUserPasswordAuthFlow)
        (flowArgs input config) input.(username)
  | CustomSRP =>
      callFlow "CUSTOM_WITH_SRP" handleCustomSRPAuthFlow
        (flowArgs input config)
  end.

(** The body of the [try] block, common to both entry points once the
    initial request is abstracted. *)
Definition attempt (flow : Flow) (input : SignInInput)
    (config : CognitoConfig) : M (Thrown + SignInOutput) :=
  response ← initialRequest flow input config;
  activeUsername ← readActiveSignInUsername input.(username);
  setActiveSignInState
    {| signInSession := response.(Session);
       activeUsername := activeUsername;
       challengeName := response.(ChallengeName);
       signInDetails := flowDetails flow input |} ;;
  match response.(AuthenticationResult) with
  | Some result =>
      newDeviceMetadata ←
        external (getNewDeviceMetatada config.(userPoolId)
                    result.(NewDeviceMetadata) result.(AccessToken));
      callCacheCognitoTokens
        {| tokens := result;
           cachedUsername := activeUsername;
           cachedDeviceMetadata := newDeviceMetadata;
           cachedSignInDetails := flowDetails flow input |} ;;
      cleanActiveSignInState ;;
      currentUser ← external getCurrentUser;
      hubDispatchSignedIn currentUser ;;
      returnValue signedInDone
  | None =>
      returnPromise
        (getSignInResult response.(ChallengeName)
                         response.(ChallengeParameters))
  end.

(** The [catch] block, the same in both entry points. *)
Definition recover (error : Thrown) : M SignInOutput :=
  cleanActiveSignInState ;;
  assertServiceError error ;;
  match getSignInResultFromError (errorName error) with
  | Some result => mret result
  | None => throw error
  end.

(** [assertTokenProviderConfig] would pass. *)
Definition tokenProviderConfigured (w : World) : bool :=
  match amplifyConfig w with
  | Some config => isTokenProviderConfig config
  | None => false
  end.

(** The three assertions that precede the [try] block all pass. *)
Definition passesAssertions (input : SignInInput) (w : World) : bool :=
  match amplifyConfig w with
  | Some config =>
      isTokenProviderConfig config
      && truthy input.(username) && truthy input.(password)
  | None => false
  end.

Definition withStore (s : option SignInState) (w : World) : World :=
  {| signInStore := s; amplifyConfig := amplifyConfig w;
     ext := ext w; trace := trace w |}.

Definition withExt (e : W) (w : World) : World :=
  {| signInStore := signInStore w; amplifyConfig := amplifyConfig w;
     ext := e; trace := trace w |}.

Definition logged (evs : list Event) (w : World) : World :=
  {| signInStore := signInStore w; amplifyConfig := amplifyConfig w;
     ext := ext w; trace := trace w ++ evs |}.

Definition requests (evs : list Event) : list FlowArgs :=
  omap (λ ev, match ev with EvRequest _ args => Some args | _ => None end) evs.

Definition cacheCalls (evs : list Event) : list CacheInput :=
  omap (λ ev, match ev with EvCacheTokens input => Some input | _ => None end) evs.

End SignIn.

(** * [resetPassword] *)

Module ResetPassword.

Inductive AuthResetPasswordStep : Type :=
| CONFIRM_RESET_PASSWORD_WITH_CODE
| DONE.

Record ServiceOptions : Type := {
  clientMetadata : option (gmap string string);
}.

Record RequestOptions : Type := {
  serviceOptions : option ServiceOptions;
}.

Record ResetPasswordRequest : Type := {
  username : string;
  options : option RequestOptions;
}.

(** [Amplify.config], of which only [clientMetadata] is read. *)
Record AmplifyConfig : Type := {
  configClientMetadata : option (gmap string string);
}.

Record ResetPasswordClientInput : Type := {
  Username : string;
  ClientMetadata : option (gmap string string);
}.

Record CodeDeliveryDetailsType : Type := {
  AttributeName : option string;
  DeliveryMedium : option string;
  Destination : option string;
}.

Record ForgotPasswordCommandOutput : Type := {
  CodeDeliveryDetails : option CodeDeliveryDetailsType;
}.

(** [AuthCodeDeliveryDetails].  The three members are filled by unchecked
    casts ([as DeliveryMedium], [as string], [as AuthStandardAttributeKey]),
    so each holds whatever the service sent, or nothing. *)
Record AuthCodeDeliveryDetails : Type := {
  deliveryMedium : option string;
  destination : option string;
  attributeName : option string;
}.

Record ResetPasswordNextStep : Type := {
  resetPasswordStep : AuthResetPasswordStep;
  codeDeliveryDetails : AuthCodeDeliveryDetails;
}.

Record ResetPasswordResult : Type := {
  isPasswordReset : bool;
  nextStep : ResetPasswordNextStep;
}.

Section Api.
(** [resetPasswordClient] and the state of the service behind it. *)
Context {W : Type}.
Variable resetPasswordClient :
  ResetPasswordClientInput → W → (Thrown + ForgotPasswordCommandOutput) * W.

Record World : Type := {
  config : AmplifyConfig;
  service : W;
  clientCalls : list ResetPasswordClientInput;
}.

Definition callResetPasswordClient (input : ResetPasswordClientInput)
    (w : World) : (Thrown + ForgotPasswordCommandOutput) * World :=
  let '(r, s) := resetPasswordClient input (service w) in
  (r, {| config := config w; service := s;
         clientCalls := clientCalls w ++ [input] |}).

(** [a ?? b] *)
Definition nullish {A} (a b : option A) : option A :=
  match a with
  | Some x => Some x
  | None => b
  end.

(** [resetPassword], lines 19-45. *)
Definition resetPassword (resetPasswordRequest : ResetPasswordRequest)
    (w : World) : (Thrown + ResetPasswordResult) * World :=
  let username := resetPasswordRequest.(username) in
  let _ :=
    if negb (truthy username) then () (* TODO: implement error handling *)
    else () in
  let config := config w in
  match
    callResetPasswordClient
      {| Username := username;
         ClientMetadata :=
           nullish
             (optionalChain
                (optionalChain resetPasswordRequest.(options)
                               serviceOptions)
                clientMetadata)
             config.(configClientMetadata) |} w
  with
  | (inl error, w') => (inl error, w')
  | (inr res, w') =>
      let codeDeliveryDetails := res.(CodeDeliveryDetails) in
      (inr {| isPasswordReset := false;
              nextStep :=
                {| resetPasswordStep := CONFIRM_RESET_PASSWORD_WITH_CODE;
                   codeDeliveryDetails :=
                     {| deliveryMedium :=
                          optionalChain codeDeliveryDetails DeliveryMedium;
                        destination :=
                          optionalChain codeDeliveryDetails Destination;
                        attributeName :=
                          optionalChain codeDeliveryDetails AttributeName
                     |} |} |},
       w')
  end.

End Api.

End ResetPassword.

(** * A scripted service

    A stand-in for the collaborators in the manner of the package's unit
    tests: the flow handlers answer from a queue of prepared outcomes, the
    token cache stores what it is given. *)

Module Scripted.

Record Service : Type := {
  queue : list (Thrown + AuthResponse);
  devices : gset string;
  stored : list CacheInput;
}.

Definition handler (args : FlowArgs) (sw : option SignInState * Service)
    : (Thrown + AuthResponse) * (option SignInState * Service) :=
  match queue sw.2 with
  | [] => (inl RejectedNull, sw)
  | r :: rest =>
      (r, (sw.1, {| queue := rest; devices := devices sw.2;
                    stored := stored sw.2 |}))
  end.

Definition clear (user : string) (s : Service) : Service :=
  {| queue := queue s; devices := devices s ∖ {[user]}; stored := stored s |}.

Definition newDevice (pool : string) (meta : option NewDeviceMetadataType)
    (token : option string) (s : Service)
    : (Thrown + option DeviceMetadata) * Service :=
  (inr ((λ m, {| deviceKey := DeviceKey m;
                 deviceGroupKey := DeviceGroupKey m;
                 randomPassword := "generated" |}) <$> meta), s).

Definition cache (input : CacheInput) (s : Service)
    : (Thrown + unit) * Service :=
  match AccessToken (tokens input) with
  | Some _ =>
      (inr (), {| queue := queue s; devices := devices s;
                  stored := stored s ++ [input] |})
  | None => (inl (Rejected "InvalidTokens" "Invalid tokens"), s)
  end.

Definition currentUser (s : Service) : (Thrown + AuthUser) * Service :=
  match last (stored s) with
  | Some input =>
      (inr {| currentUsername := cachedUsername input;
              userId := "sub-" +:+ cachedUsername input |}, s)
  | None => (inl (Rejected "UserUnAuthenticatedException" "no tokens"), s)
  end.

Definition smsCodeStep : NextStepEntry :=
  {| stepTag := "CONFIRM_SIGN_IN_WITH_SMS_CODE";
     exposedKeys := {[ "CODE_DELIVERY_DESTINATION" ]} |}.

Definition newPasswordStep : NextStepEntry :=
  {| stepTag := "CONFIRM_SIGN_IN_WITH_NEW_PASSWORD_REQUIRED";
     exposedKeys := {[ "requiredAttributes" ]} |}.

Definition resetPasswordOutput : SignInOutput :=
  {| isSignedIn := false;
     nextStep := {| signInStep := "RESET_PASSWORD"; stepParameters := ∅ |} |}.

#[global] Instance env : CognitoEnv Service := {|
  handleUserPasswordAuthFlow := handler;
  handleCustomSRPAuthFlow := handler;
  clearDeviceMetadata := clear;
  getNewDeviceMetatada := newDevice;
  cacheCognitoTokens := cache;
  getCurrentUser := currentUser;
  getActiveSignInUsername := λ _ name, name;
  isTokenProviderConfig :=
    λ c, truthy (userPoolId c) && truthy (userPoolClientId c);
  isServiceError := λ e, bool_decide (errorName e ≠ "Error");
  challengeNextStep :=
    {[ "SMS_MFA" := smsCodeStep; "NEW_PASSWORD_REQUIRED" := newPasswordStep ]};
  signInErrorSteps :=
    {[ "PasswordResetRequiredException" := resetPasswordOutput ]};
|}.

Definition pool : CognitoConfig :=
  {| userPoolId := "us-west-2_zzzzz"; userPoolClientId := "111111" |}.

Definition world (conf : option CognitoConfig) (store : option SignInState)
    (script : list (Thrown + AuthResponse)) : World :=
  {| signInStore := store; amplifyConfig := conf;
     ext := {| queue := script; devices := {[ "alice" ]}; stored := [] |};
     trace := [] |}.

Definition configured (store : option SignInState)
    (script : list (Thrown + AuthResponse)) : World :=
  world (Some pool) store script.

Definition alice : SignInInput :=
  {| username := "alice"; password := "Passw0rd!"; options := None |}.

Definition aliceArgs : FlowArgs := flowArgs alice pool.

Definition issued : AuthenticationResultType :=
  {| AccessToken := Some "access"; IdToken := Some "id";
     RefreshToken := Some "refresh"; TokenType := Some "Bearer";
     ExpiresIn := Some 3600%Z; NewDeviceMetadata := None |}.

(** What the password flow hands to the token cache for [alice]. *)
Definition handedAlice : CacheInput :=
  {| tokens := issued; cachedUsername := "alice";
     cachedDeviceMetadata := None;
     cachedSignInDetails := flowDetails UserPassword alice |}.

Definition tokensIssued : AuthResponse :=
  {| ChallengeName := None; ChallengeParameters := None;
     AuthenticationResult := Some issued; Session := None |}.

Definition smsChallenge : AuthResponse :=
  {| ChallengeName := Some "SMS_MFA";
     ChallengeParameters :=
       Some {[ "CODE_DELIVERY_DESTINATION" := "+1*******42";
               "USER_ID_FOR_SRP" := "alice" ]};
     AuthenticationResult := None; Session := Some "session-1" |}.

Definition strayChallenge : AuthResponse :=
  {| ChallengeName := Some "EMAIL_OTP"; ChallengeParameters := None;
     AuthenticationResult := None; Session := Some "session-2" |}.

Definition deviceGone : Thrown :=
  Rejected "ResourceNotFoundException" "Device does not exist.".

Definition notAuthorized : Thrown :=
  Rejected "NotAuthorizedException" "Incorrect username or password.".

Definition resetRequired : Thrown :=
  Rejected "PasswordResetRequiredException" "Password reset required".

Definition blankUsername : SignInInput :=
  {| username := ""; password := "Passw0rd!"; options := None |}.

Definition blankPassword : SignInInput :=
  {| username := "alice"; password := ""; options := None |}.

(** The state an earlier attempt left behind when it stopped at a
    challenge. *)
Definition pending : SignInState :=
  {| signInSession := Some "session-1";
     activeUsername := "alice";
     challengeName := Some "SMS_MFA";
     signInDetails :=
       {| loginId := "alice"; authFlowType := "USER_PASSWORD_AUTH" |} |}.

Definition codeSent : ResetPassword.ForgotPasswordCommandOutput :=
  {| ResetPassword.CodeDeliveryDetails :=
       Some {| ResetPassword.AttributeName := Some "email";
               ResetPassword.DeliveryMedium := Some "EMAIL";
               ResetPassword.Destination := Some "a***@e***.com" |} |}.

(** [resetPasswordClient] answering with where the code went. *)
Definition forgotPassword (input : ResetPassword.ResetPasswordClientInput)
    (s : unit)
    : (Thrown + ResetPassword.ForgotPasswordCommandOutput) * unit :=
  (inr codeSent, s).

Definition resetWorld : @ResetPassword.World unit :=
  {| ResetPassword.config :=
       {| ResetPassword.configClientMetadata := None |};
     ResetPassword.service := ();
     ResetPassword.clientCalls := [] |}.

Definition blankReset : ResetPassword.ResetPasswordRequest :=
  {| ResetPassword.username := ""; ResetPassword.options := None |}.

End Scripted.


(** * [setUpTOTP] *)

Module SetUpTOTP.

Section Api.
Context {W V Output : Type}.

(** A claim of a token payload: [null], a string, or any other JSON value
    (numbers, booleans, arrays, objects), which this code never inspects. *)
Inductive Claim : Type :=
| ClaimNull
| ClaimString (s : string)
| ClaimOther (v : V).

(** A decoded token: its payload and what [toString()] gives. *)
Record JWT : Type := {
  payload : gmap string Claim;
  tokenString : string;
}.

Record AuthTokens : Type := {
  idToken : option JWT;
  accessToken : JWT;
}.

(** The part of [fetchAuthSession]'s answer that is destructured. *)
Record AuthSession : Type := {
  tokens : option AuthTokens;
}.

Record ServiceConfig : Type := {
  region : string;
  userAgentValue : string;
}.

Record AssociateSoftwareTokenInput : Type := {
  AccessToken : string;
}.

Record AssociateSoftwareTokenOutput : Type := {
  SecretCode : option string;
  Session : option string;
}.

(** Calls that leave the function, in order. *)
Inductive Call : Type :=
| FetchAuthSession (forceRefresh : bool)
| AssociateSoftwareToken (config : ServiceConfig)
    (input : AssociateSoftwareTokenInput).

(** What [setUpTOTP] imports. *)
Class Collaborators : Type := {
  (* the test behind assertTokenProviderConfig, on a present configuration *)
  tokenProviderConfigOk : CognitoConfig → bool;
  fetchAuthSession : bool → W → (Thrown + AuthSession) * W;
  (* assertAuthTokens: the error it throws, if it throws *)
  assertAuthTokens : option AuthTokens → option Thrown;
  getRegion : string → Thrown + string;
  (* getAuthUserAgentValue(AuthAction.SetUpTOTP) *)
  setUpTOTPUserAgentValue : string;
  associateSoftwareToken :
    ServiceConfig → AssociateSoftwareTokenInput →
    W → (Thrown + AssociateSoftwareTokenOutput) * W;
  getTOTPSetupDetails : string → string → Output;
  (* JSON.stringify *)
  stringify : Claim → string;
  SETUP_TOTP_EXCEPTION : string;
}.

Context `{Collab : Collaborators}.

Record World : Type := {
  amplifyConfig : option CognitoConfig;
  service : W;
  calls : list Call;
}.

Definition M (A : Type) : Type := World → (Thrown + A) * World.

Definition ret {A} (a : A) : M A := λ w, (inr a, w).

Definition throw {A} (error : Thrown) : M A := λ w, (inl error, w).

Definition bind {A B} (k : A → M B) (m : M A) : M B :=
  λ w, match m w with
       | (inl error, w') => (inl error, w')
       | (inr a, w') => k a w'
       end.

#[local] Instance M_ret : MRet M := @ret.
#[local] Instance M_bind : MBind M := @bind.

(** A call to a collaborator behind the network; the call is recorded
    before it is made. *)
Definition remote {A} (call : Call) (f : W → (Thrown + A) * W) : M A :=
  λ w, let '(r, s) := f (service w) in
       (r, {| amplifyConfig := amplifyConfig w; service := s;
              calls := calls w ++ [call] |}).

Definition getCognitoConfig : M (option CognitoConfig) :=
  λ w, (inr (amplifyConfig w), w).

(** A synchronous helper that may throw. *)
Definition evaluate {A} (r : Thrown + A) : M A :=
  match r with
  | inl error => throw error
  | inr a => ret a
  end.

(** Modelled from the spec: [assertTokenProviderConfig] of the core package,
    as for the sign-in entry points. *)
Definition assertTokenProviderConfig
    (authConfig : option CognitoConfig) : M CognitoConfig :=
  match authConfig with
  | Some config =>
      if tokenProviderConfigOk config then ret config
      else throw AuthTokenConfigException
  | None => throw AuthTokenConfigException
  end.

(** Reading a member of [undefined]; the message depends on the engine and
    is left empty. *)
Definition typeError : Thrown := Rejected "TypeError" "".

(** [payload['cognito:username'] ?? ''] and the like: a missing claim and a
    [null] claim both give way to the default. *)
Definition nullishClaim (claim : option Claim) (fallback : Claim) : Claim :=
  match claim with
  | None | Some ClaimNull => fallback
  | Some value => value
  end.

(** [new AuthError({name: SETUP_TOTP_EXCEPTION,
                    message: 'Failed to set up TOTP.'})] *)
Definition setUpTOTPFailed : Thrown :=
  Rejected SETUP_TOTP_EXCEPTION "Failed to set up TOTP.".

(** [setUpTOTP], lines 29-54. *)
Definition setUpTOTP : M Output :=
  authConfig ← getCognitoConfig;
  authConfig ← assertTokenProviderConfig authConfig;
  session ← remote (FetchAuthSession false) (fetchAuthSession false);
  let tokens := session.(tokens) in
  evaluate (match assertAuthTokens tokens with
            | Some error => inl error
            | None => inr ()
            end) ;;
  tokens ← evaluate (match tokens with
                     | Some present => inr present
                     | None => inl typeError
                     end);
  let username :=
    nullishClaim
      (optionalChain tokens.(idToken) (λ t, t.(payload) !! "cognito:username"))
      (ClaimString "") in
  region ← evaluate (getRegion authConfig.(userPoolId));
  let config :=
    {| region := region; userAgentValue := setUpTOTPUserAgentValue |} in
  let input := {| AccessToken := tokens.(accessToken).(tokenString) |} in
  response ←
    remote (AssociateSoftwareToken config input)
           (associateSoftwareToken config input);
  match response.(SecretCode) with
  | Some code =>
      if negb (truthy code) then
        (* This should never happen. *)
        throw setUpTOTPFailed
      else ret (getTOTPSetupDetails code (stringify username))
  | None => throw setUpTOTPFailed
  end.

(** The account name that goes into the setup details for given tokens. *)
Definition accountClaim (tokens : AuthTokens) : Claim :=
  nullishClaim
    (optionalChain tokens.(idToken) (λ t, t.(payload) !! "cognito:username"))
    (ClaimString "").

Definition associations (cs : list Call)
    : list (ServiceConfig * AssociateSoftwareTokenInput) :=
  omap (λ c, match c with
             | AssociateSoftwareToken config input => Some (config, input)
             | _ => None
             end) cs.

Definition sessionFetches (cs : list Call) : list bool :=
  omap (λ c, match c with
             | FetchAuthSession force => Some force
             | _ => None
             end) cs.

End Api.

Arguments Claim : clear implicits.
Arguments JWT : clear implicits.
Arguments AuthTokens : clear implicits.
Arguments AuthSession : clear implicits.
Arguments Collaborators : clear implicits.
Arguments World : clear implicits.

End SetUpTOTP.

(** * More vocabulary for the sign-in traces *)

Definition dispatches (evs : list Event) : list AuthUser :=
  omap (λ ev, match ev with
              | EvHubDispatch _ _ data => Some data
              | _ => None
              end) evs.

Definition clearings (evs : list Event) : list string :=
  omap (λ ev, match ev with
              | EvClearDeviceMetadata user => Some user
              | _ => None
              end) evs.

(** * Further scripted collaborators *)

Module Fixtures.

(** The scripted service, except that nobody is ever signed in as far as
    [getCurrentUser] can tell. *)
Definition withoutCurrentUser : CognitoEnv Scripted.Service := {|
  handleUserPasswordAuthFlow := Scripted.handler;
  handleCustomSRPAuthFlow := Scripted.handler;
  clearDeviceMetadata := Scripted.clear;
  getNewDeviceMetatada := Scripted.newDevice;
  cacheCognitoTokens := Scripted.cache;
  getCurrentUser :=
    λ s, (inl (Rejected "UserUnAuthenticatedException"
                        "User needs to be authenticated to call this API."),
          s);
  getActiveSignInUsername := λ _ name, name;
  isTokenProviderConfig :=
    λ c, truthy (userPoolId c) && truthy (userPoolClientId c);
  isServiceError := λ e, bool_decide (errorName e ≠ "Error");
  challengeNextStep := {[ "SMS_MFA" := Scripted.smsCodeStep ]};
  signInErrorSteps :=
    {[ "PasswordResetRequiredException" := Scripted.resetPasswordOutput ]};
|}.

Definition notSignedIn : Thrown :=
  Rejected "UserUnAuthenticatedException"
           "User needs to be authenticated to call this API.".

(** *** [resetPassword] *)

Definition throttled : Thrown :=
  Rejected "LimitExceededException" "Attempt limit exceeded".

Definition rejectingClient (input : ResetPassword.ResetPasswordClientInput)
    (s : nat)
    : (Thrown + ResetPassword.ForgotPasswordCommandOutput) * nat :=
  (inl throttled, S s).

(** A client that answers without saying where the code went. *)
Definition silentClient (input : ResetPassword.ResetPasswordClientInput)
    (s : nat)
    : (Thrown + ResetPassword.ForgotPasswordCommandOutput) * nat :=
  (inr {| ResetPassword.CodeDeliveryDetails := None |}, S s).

Definition resetWorld (defaults : option (gmap string string))
    : @ResetPassword.World nat :=
  {| ResetPassword.config :=
       {| ResetPassword.configClientMetadata := defaults |};
     ResetPassword.service := 0;
     ResetPassword.clientCalls := [] |}.

Definition resetFor (name : string) (meta : option (gmap string string))
    : ResetPassword.ResetPasswordRequest :=
  {| ResetPassword.username := name;
     ResetPassword.options :=
       Some {| ResetPassword.serviceOptions :=
                 Some {| ResetPassword.clientMetadata := meta |} |} |}.

(** *** [setUpTOTP] *)

(** The region is what precedes the underscore of a pool id. *)
Definition regionOf (pool : string) : Thrown + string :=
  match String.index 0 "_" pool with
  | Some (S n) => inr (String.substring 0 (S n) pool)
  | _ => inl (Rejected "InvalidUserPoolId" "Invalid user pool id provided.")
  end.

Definition quoteMark : string := String (Ascii.ascii_of_nat 34) EmptyString.

Definition quoted (claim : SetUpTOTP.Claim unit) : string :=
  match claim with
  | SetUpTOTP.ClaimNull => "null"
  | SetUpTOTP.ClaimString s => quoteMark +:+ s +:+ quoteMark
  | SetUpTOTP.ClaimOther _ => "{}"
  end.

(** Collaborators of [setUpTOTP] with a fixed session and a fixed answer of
    the service; the service state counts the requests it has seen. *)
Definition totp (session : Thrown + SetUpTOTP.AuthSession unit)
    (answer : Thrown + SetUpTOTP.AssociateSoftwareTokenOutput)
    : SetUpTOTP.Collaborators nat unit (string * string) := {|
  SetUpTOTP.tokenProviderConfigOk :=
    λ c, truthy (userPoolId c) && truthy (userPoolClientId c);
  SetUpTOTP.fetchAuthSession := λ _ s, (session, s);
  SetUpTOTP.assertAuthTokens :=
    λ t, match t with
         | Some _ => None
         | None => Some notSignedIn
         end;
  SetUpTOTP.getRegion := regionOf;
  SetUpTOTP.setUpTOTPUserAgentValue := "aws-amplify/6.0.0 auth/8";
  SetUpTOTP.associateSoftwareToken := λ _ _ s, (answer, S s);
  SetUpTOTP.getTOTPSetupDetails := λ secret account, (secret, account);
  SetUpTOTP.stringify := quoted;
  SetUpTOTP.SETUP_TOTP_EXCEPTION := "SetUpTOTPException";
|}.

Definition accessJWT : SetUpTOTP.JWT unit :=
  {| SetUpTOTP.payload := ∅; SetUpTOTP.tokenString := "access.jwt" |}.

Definition idJWT (claims : gmap string (SetUpTOTP.Claim unit))
    : SetUpTOTP.JWT unit :=
  {| SetUpTOTP.payload := claims; SetUpTOTP.tokenString := "id.jwt" |}.

Definition signedInAs (claims : gmap string (SetUpTOTP.Claim unit))
    : SetUpTOTP.AuthTokens unit :=
  {| SetUpTOTP.idToken := Some (idJWT claims);
     SetUpTOTP.accessToken := accessJWT |}.

Definition sessionOf (t : SetUpTOTP.AuthTokens unit)
    : Thrown + SetUpTOTP.AuthSession unit :=
  inr {| SetUpTOTP.tokens := Some t |}.

Definition secret (code : option string)
    : Thrown + SetUpTOTP.AssociateSoftwareTokenOutput :=
  inr {| SetUpTOTP.SecretCode := code; SetUpTOTP.Session := None |}.

Definition totpWorld (conf : option CognitoConfig) : SetUpTOTP.World nat :=
  {| SetUpTOTP.amplifyConfig := conf; SetUpTOTP.service := 0;
     SetUpTOTP.calls := [] |}.

End Fixtures.

(** * Properties of the sign-in entry points *)

Section SignInFacts.
Context {W : Type} `{Env : CognitoEnv W}.
Implicit Types (w : @World W) (input : SignInInput) (flow : Flow).
Implicit Types (config : CognitoConfig) (error : Thrown).

Ltac unfold_monad :=
  unfold mbind, M_bind, bind, mret, M_ret, returnValue, returnPromise, ret,
    throw, tryCatch, tryCatchReturn in *.

(** Past the assertions, an entry point is its [try] block guarded by its
    [catch] block, the promise returned at the end of the block excepted. *)
Lemma signIn_past_assertions flow input w config :
  amplifyConfig w = Some config →
  isTokenProviderConfig config = true →
  truthy input.(username) = true →
  truthy input.(password) = true →
  signIn flow input w = tryCatchReturn (attempt flow input config) recover w.
Proof.
  intros Hc Hok Hu Hp.
  destruct flow; simpl;
    unfold signInWithUserPassword, signInWithCustomSRPAuth, attempt, recover,
      initialRequest, getCognitoConfig, assertTokenProviderConfig,
      assertValidationError, flowArgs, flowDetails;
    unfold_monad; simpl; rewrite Hc, Hok, Hu, Hp; reflexivity.
Qed.

(** When an assertion fails, nothing has happened yet. *)
Lemma signIn_assertion_fails flow input w :
  passesAssertions input w = false →
  ∃ error, signIn flow input w = (inl error, w).
Proof.
  unfold passesAssertions. intros Hf.
  destruct flow; simpl;
    unfold signInWithUserPassword, signInWithCustomSRPAuth,
      getCognitoConfig, assertTokenProviderConfig, assertValidationError;
    unfold_monad; simpl;
    destruct (amplifyConfig w) as [config|]; eauto;
    destruct (isTokenProviderConfig config); eauto;
    destruct (truthy (username input)); eauto;
    destruct (truthy (password input)); eauto; done.
Qed.

(** The [catch] block always empties the store, then either rethrows,
    wraps, or turns the error into a continuation. *)
Lemma recover_outcome error w :
  recover error w =
    if isNull error || negb (isServiceError error)
    then (inl (UnknownError error), withStore None w)
    else match getSignInResultFromError (errorName error) with
         | Some result => (inr result, withStore None w)
         | None => (inl error, withStore None w)
         end.
Proof.
  unfold recover, cleanActiveSignInState, assertServiceError, withStore.
  unfold_monad; simpl.
  destruct (isNull error || negb (isServiceError error)); [done|].
  by destruct (getSignInResultFromError (errorName error)).
Qed.

Lemma recover_clears error w r w' :
  recover error w = (r, w') → signInStore w' = None.
Proof.
  rewrite recover_outcome. intros Hr.
  destruct (isNull error || negb (isServiceError error));
    [|destruct (getSignInResultFromError (errorName error))];
    by inversion Hr.
Qed.

(** One invocation of a handler leaves exactly one request in the trace. *)
Lemma callFlow_trace name handler args w r w1 :
  callFlow name handler args w = (r, w1) →
  trace w1 = trace w ++ [EvRequest name args].
Proof.
  unfold callFlow, emit, runHandler. unfold_monad; simpl.
  destruct (handler args _) as [r' [s e]]. by inversion 1.
Qed.

Lemma retry_first_success name handler args user w response w1 :
  callFlow name handler args w = (inr response, w1) →
  retryOnResourceNotFoundException (callFlow name handler) args user w
  = (inr response, w1).
Proof.
  intros H1. unfold retryOnResourceNotFoundException, tryCatch.
  by rewrite H1.
Qed.

Lemma retry_other_failure name handler args user w error w1 :
  callFlow name handler args w = (inl error, w1) →
  negb (isNull error)
    && bool_decide (errorName error = "ResourceNotFoundException") = false →
  retryOnResourceNotFoundException (callFlow name handler) args user w
  = (inl error, w1).
Proof.
  intros H1 Hn. unfold retryOnResourceNotFoundException, tryCatch.
  by rewrite H1, Hn.
Qed.

Lemma retry_second_invocation name handler args user w error w1 :
  callFlow name handler args w = (inl error, w1) →
  negb (isNull error)
    && bool_decide (errorName error = "ResourceNotFoundException") = true →
  retryOnResourceNotFoundException (callFlow name handler) args user w
  = callFlow name handler args
      (withExt (clearDeviceMetadata user (ext w1))
               (logged [EvClearDeviceMetadata user] w1)).
Proof.
  intros H1 Hn. unfold retryOnResourceNotFoundException, tryCatch.
  rewrite H1, Hn. reflexivity.
Qed.

(** What the retry wrapper can leave in the trace. *)
Lemma retry_trace name handler args user w r w' :
  retryOnResourceNotFoundException (callFlow name handler) args user w
  = (r, w') →
  trace w' = trace w ++ [EvRequest name args]
  ∨ trace w' = trace w ++ [EvRequest name args; EvClearDeviceMetadata user;
                           EvRequest name args].
Proof.
  destruct (callFlow name handler args w) as [[error|response] w1] eqn:H1.
  - destruct (negb (isNull error)
              && bool_decide (errorName error = "ResourceNotFoundException"))
      eqn:Hn.
    + rewrite (retry_second_invocation _ _ _ _ _ _ _ H1 Hn). intros H2.
      right. apply callFlow_trace in H1, H2. rewrite H2; simpl.
      rewrite H1, <- !app_assoc. reflexivity.
    + rewrite (retry_other_failure _ _ _ _ _ _ _ H1 Hn). intros [= <- <-].
      left. by eapply callFlow_trace.
  - rewrite (retry_first_success _ _ _ _ _ _ _ H1). intros [= <- <-].
    left. by eapply callFlow_trace.
Qed.

(** The initial request of either entry point only adds handler invocations
    and, for the password flow, possibly one clearing of device context. *)
Lemma initialRequest_trace flow input config w r w1 :
  initialRequest flow input config w = (r, w1) →
  ∃ evs, trace w1 = trace w ++ evs ∧ cacheCalls evs = []
         ∧ 1 ≤ length (requests evs) ≤ 2.
Proof.
  destruct flow; simpl; intros H1.
  - apply retry_trace in H1 as [-> | ->];
      eexists; (split; [reflexivity|]); simpl; split; [done|lia| done | lia].
  - apply callFlow_trace in H1 as ->.
    eexists; (split; [reflexivity|]); simpl; split; [done|lia].
Qed.

(** *** The [try] block, path by path *)

Ltac unfold_attempt :=
  unfold attempt, readActiveSignInUsername, setActiveSignInState,
    callCacheCognitoTokens, cleanActiveSignInState, hubDispatchSignedIn,
    getSignInResult, external, emit;
  unfold_monad; simpl.

Lemma attempt_request_fails flow input config w error w1 :
  initialRequest flow input config w = (inl error, w1) →
  attempt flow input config w = (inl error, w1).
Proof. intros H1. unfold_attempt. by rewrite H1. Qed.

Lemma attempt_tokens_issued flow input config w response result w1
    device e2 e3 user e4 :
  initialRequest flow input config w = (inr response, w1) →
  response.(AuthenticationResult) = Some result →
  getNewDeviceMetatada config.(userPoolId) result.(NewDeviceMetadata)
    result.(AccessToken) (ext w1) = (inr device, e2) →
  let handed :=
    {| tokens := result;
       cachedUsername :=
         getActiveSignInUsername (signInStore w1) input.(username);
       cachedDeviceMetadata := device;
       cachedSignInDetails := flowDetails flow input |} in
  cacheCognitoTokens handed e2 = (inr (), e3) →
  getCurrentUser e3 = (inr user, e4) →
  attempt flow input config w
  = (inr (inr signedInDone),
     {| signInStore := None; amplifyConfig := amplifyConfig w1; ext := e4;
        trace := trace w1 ++ [EvCacheTokens handed;
                              EvHubDispatch "auth" "signedIn" user] |}).
Proof.
  intros H1 Hres Hdev handed Hcache Huser. unfold_attempt.
  rewrite H1; simpl. rewrite Hres; simpl. rewrite Hdev; simpl.
  fold handed. rewrite Hcache; simpl. rewrite Huser; simpl.
  by rewrite <- app_assoc.
Qed.

Lemma attempt_challenge flow input config w response w1 :
  initialRequest flow input config w = (inr response, w1) →
  response.(AuthenticationResult) = None →
  attempt flow input config w
  = returnPromise
      (getSignInResult response.(ChallengeName) response.(ChallengeParameters))
      (withStore
         (Some {| signInSession := response.(Session);
                  activeUsername :=
                    getActiveSignInUsername (signInStore w1)
                                            input.(username);
                  challengeName := response.(ChallengeName);
                  signInDetails := flowDetails flow input |}) w1).
Proof.
  intros H1 Hres. unfold attempt, readActiveSignInUsername,
    setActiveSignInState, withStore.
  unfold_monad; simpl. by rewrite H1, Hres.
Qed.

(** The [try] block hands back a rejected promise only on the path without
    [AuthenticationResult]. *)
Lemma attempt_rejected_promise flow input config w error w' :
  attempt flow input config w = (inr (inl error), w') →
  ∃ response w1,
    initialRequest flow input config w = (inr response, w1)
    ∧ response.(AuthenticationResult) = None.
Proof.
  intros H.
  destruct (initialRequest flow input config w) as [[e|response] w1] eqn:H1.
  { by rewrite (attempt_request_fails _ _ _ _ _ _ H1) in H. }
  exists response, w1. split; [done|].
  destruct (AuthenticationResult response) as [result|] eqn:Hres; [|done].
  revert H. unfold_attempt. rewrite H1; simpl. rewrite Hres; simpl.
  destruct (getNewDeviceMetatada _ _ _ (ext w1)) as [[e|device] e2];
    simpl; [done|].
  destruct (cacheCognitoTokens _ e2) as [[e|[]] e3]; simpl; [done|].
  destruct (getCurrentUser e3) as [[e|user] e4]; simpl; done.
Qed.

(** A failure thrown inside the [try] block ends with an empty store. *)
Lemma guarded_attempt_failure_clears flow input config w error w' :
  tryCatchReturn (attempt flow input config) recover w = (inl error, w') →
  (∀ response w1,
     initialRequest flow input config w = (inr response, w1) →
     response.(AuthenticationResult) ≠ None) →
  signInStore w' = None.
Proof.
  unfold tryCatchReturn. intros H Htokens.
  destruct (attempt flow input config w) as [[e0|[e0|out]] w1] eqn:Ha;
    [by eapply recover_clears| |done].
  apply attempt_rejected_promise in Ha as (response & w0 & H1 & Hres).
  by destruct (Htokens _ _ H1).
Qed.

Lemma passesAssertions_true input w :
  passesAssertions input w = true →
  ∃ config, amplifyConfig w = Some config
    ∧ isTokenProviderConfig config = true
    ∧ truthy input.(username) = true ∧ truthy input.(password) = true.
Proof.
  unfold passesAssertions. destruct (amplifyConfig w) as [config|]; [|done].
  intros [[? ?]%andb_prop ?]%andb_prop. eauto.
Qed.

Lemma truthy_empty (s : string) : truthy s = false ↔ s = "".
Proof.
  unfold truthy. rewrite bool_decide_eq_false.
  split; [apply dec_stable | by intros -> ?].
Qed.

(** *** Assertions before the [try] block *)

(** C9.  In both entry points the token-provider configuration is asserted
    before the username and the password are looked at: whenever the
    configuration is missing or fails the assertion, the call throws the
    configuration error and nothing else has happened, whatever the input,
    an empty username or an empty password included. *)
Theorem signIn_config_error_first flow input w :
  tokenProviderConfigured w = false →
  signIn flow input w = (inl AuthTokenConfigException, w).
Proof.
  unfold tokenProviderConfigured. intros Hc.
  destruct flow; simpl;
    unfold signInWithUserPassword, signInWithCustomSRPAuth,
      getCognitoConfig, assertTokenProviderConfig;
    unfold_monad; simpl;
    destruct (amplifyConfig w) as [config|]; try done;
    by rewrite Hc.
Qed.

(** C3, amended.  An input whose username or password is empty makes both
    entry points fail before anything is sent: the world, trace included,
    is the one the call started from.  When the token-provider
    configuration passes its assertion the error is the validation error
    naming the empty field, the username being examined first. *)
Theorem signIn_empty_credentials flow input w :
  input.(username) = "" ∨ input.(password) = "" →
  (∃ error, signIn flow input w = (inl error, w))
  ∧ (tokenProviderConfigured w = true →
     input.(username) = "" →
     signIn flow input w = (inl (AuthValidationError EmptySignInUsername), w))
  ∧ (tokenProviderConfigured w = true →
     input.(username) ≠ "" →
     signIn flow input w = (inl (AuthValidationError EmptySignInPassword), w)).
Proof.
  intros Hempty. split; [|split].
  - apply signIn_assertion_fails. unfold passesAssertions.
    destruct (amplifyConfig w); [|done].
    destruct Hempty as [Hu|Hp].
    + apply truthy_empty in Hu. rewrite Hu. by rewrite andb_false_r.
    + apply truthy_empty in Hp. rewrite Hp. by rewrite andb_false_r.
  - unfold tokenProviderConfigured. intros Hc Hu%truthy_empty.
    destruct flow; simpl;
      unfold signInWithUserPassword, signInWithCustomSRPAuth,
        getCognitoConfig, assertTokenProviderConfig, assertValidationError;
      unfold_monad; simpl;
      destruct (amplifyConfig w) as [config|]; try done;
      by rewrite Hc, Hu.
  - unfold tokenProviderConfigured. intros Hc Hu.
    destruct Hempty as [?|Hp%truthy_empty]; [done|].
    assert (truthy input.(username) = true) as Hu'
      by (unfold truthy; by apply bool_decide_eq_true).
    destruct flow; simpl;
      unfold signInWithUserPassword, signInWithCustomSRPAuth,
        getCognitoConfig, assertTokenProviderConfig, assertValidationError;
      unfold_monad; simpl;
      destruct (amplifyConfig w) as [config|]; try done;
      by rewrite Hc, Hu', Hp.
Qed.

(** *** Outcomes of the initial request *)

(** C1, amended.  When the initial request of either entry point (retried
    or not) resolves with a response that carries [AuthenticationResult],
    and [getNewDeviceMetatada], [cacheCognitoTokens] and [getCurrentUser],
    which the entry point awaits next, all resolve, the call returns exactly
    [{isSignedIn: true, nextStep: {signInStep: 'DONE'}}], the token cache
    has been invoked exactly once, with the returned tokens, and the active
    sign-in state is empty. *)
Theorem signIn_tokens_issued_done flow input w config response result w1
    device e2 e3 user e4 :
  amplifyConfig w = Some config →
  passesAssertions input w = true →
  initialRequest flow input config w = (inr response, w1) →
  response.(AuthenticationResult) = Some result →
  getNewDeviceMetatada config.(userPoolId) result.(NewDeviceMetadata)
    result.(AccessToken) (ext w1) = (inr device, e2) →
  let handed :=
    {| tokens := result;
       cachedUsername :=
         getActiveSignInUsername (signInStore w1) input.(username);
       cachedDeviceMetadata := device;
       cachedSignInDetails := flowDetails flow input |} in
  cacheCognitoTokens handed e2 = (inr (), e3) →
  getCurrentUser e3 = (inr user, e4) →
  ∃ w',
    signIn flow input w
    = (inr {| isSignedIn := true;
              nextStep := {| signInStep := "DONE"; stepParameters := ∅ |} |},
       w')
    ∧ signInStore w' = None
    ∧ cacheCalls (trace w') = cacheCalls (trace w) ++ [handed]
    ∧ ext w' = e4.
Proof.
  intros Hc Hpass H1 Hres Hdev handed Hcache Huser.
  apply passesAssertions_true in Hpass as (c & Hc' & Hok & Hu & Hp).
  assert (c = config) as -> by congruence.
  eexists. split; [|split; [|split]].
  - rewrite (signIn_past_assertions _ _ _ _ Hc Hok Hu Hp).
    unfold tryCatchReturn.
    by rewrite (attempt_tokens_issued _ _ _ _ _ _ _ _ _ _ _ _
                  H1 Hres Hdev Hcache Huser).
  - reflexivity.
  - simpl. apply initialRequest_trace in H1 as (evs & -> & Hnone & _).
    unfold cacheCalls in *. rewrite !omap_app, Hnone. simpl.
    by rewrite app_nil_r.
  - reflexivity.
Qed.

(** C2.  When the initial request resolves with a challenge name the table
    knows and no [AuthenticationResult], the call returns a result that is
    not signed in and whose [signInStep] is the table's tag for that
    challenge; afterwards the active sign-in state holds the returned
    [Session] and the username of the attempt. *)
Theorem signIn_challenge_next_step flow input w config response w1
    name entry :
  amplifyConfig w = Some config →
  passesAssertions input w = true →
  initialRequest flow input config w = (inr response, w1) →
  response.(AuthenticationResult) = None →
  response.(ChallengeName) = Some name →
  challengeNextStep !! name = Some entry →
  ∃ out w',
    signIn flow input w = (inr out, w')
    ∧ out.(isSignedIn) = false
    ∧ out.(nextStep).(signInStep) = stepTag entry
    ∧ signInStore w'
      = Some {| signInSession := response.(Session);
                activeUsername :=
                  getActiveSignInUsername (signInStore w1) input.(username);
                challengeName := Some name;
                signInDetails := flowDetails flow input |}.
Proof.
  intros Hc Hpass H1 Hres Hname Hentry.
  apply passesAssertions_true in Hpass as (c & Hc' & Hok & Hu & Hp).
  assert (c = config) as -> by congruence.
  rewrite (signIn_past_assertions _ _ _ _ Hc Hok Hu Hp).
  unfold tryCatchReturn. rewrite (attempt_challenge _ _ _ _ _ _ H1 Hres).
  unfold returnPromise, getSignInResult. rewrite Hname; simpl. rewrite Hentry.
  unfold_monad. do 2 eexists. split; [reflexivity|]. by simpl.
Qed.

(** Whatever the [try] block fails with is classified the same way. *)
Lemma signIn_attempt_error_classified flow input w config error w1 :
  amplifyConfig w = Some config →
  passesAssertions input w = true →
  attempt flow input config w = (inl error, w1) →
  isNull error = false →
  isServiceError error = true →
  signIn flow input w
  = match signInErrorSteps !! errorName error with
    | Some result => (inr result, withStore None w1)
    | None => (inl error, withStore None w1)
    end.
Proof.
  intros Hc Hpass H1 Hnull Hservice.
  apply passesAssertions_true in Hpass as (c & Hc' & Hok & Hu & Hp).
  assert (c = config) as -> by congruence.
  rewrite (signIn_past_assertions _ _ _ _ Hc Hok Hu Hp).
  unfold tryCatchReturn. rewrite H1.
  rewrite recover_outcome, Hnull, Hservice. reflexivity.
Qed.

(** C6.  A service-level error with which the initial request of an entry
    point fails is classified by its name: a name in the table of benign
    outcomes makes the call return the table's continuation result instead
    of throwing, any other name makes the call throw that very error.
    Either way the active sign-in state has been emptied. *)
Theorem signIn_service_error_classified flow input w config error w1 :
  amplifyConfig w = Some config →
  passesAssertions input w = true →
  initialRequest flow input config w = (inl error, w1) →
  isNull error = false →
  isServiceError error = true →
  signIn flow input w
  = match getSignInResultFromError (errorName error) with
    | Some result => (inr result, withStore None w1)
    | None => (inl error, withStore None w1)
    end.
Proof.
  intros Hc Hpass H1 Hnull Hservice.
  apply (signIn_attempt_error_classified _ _ _ config); try done.
  by apply attempt_request_fails.
Qed.

(** C7.  When the initial request resolves with a challenge name outside
    the table (a response that carries a challenge and, as such, no
    [AuthenticationResult]), the call throws the sign-in exception naming
    that challenge and returns no result.  The promise of [getSignInResult]
    is returned without [await], so the exception reaches the caller as it
    is, past the [catch] block, and the state set for the attempt stays in
    the store. *)
Theorem signIn_unsupported_challenge_fatal flow input w config response w1
    name :
  amplifyConfig w = Some config →
  passesAssertions input w = true →
  initialRequest flow input config w = (inr response, w1) →
  response.(AuthenticationResult) = None →
  response.(ChallengeName) = Some name →
  name ∉ dom challengeNextStep →
  signIn flow input w
  = (inl (SignInException (Some name)),
     withStore
       (Some {| signInSession := response.(Session);
                activeUsername :=
                  getActiveSignInUsername (signInStore w1) input.(username);
                challengeName := Some name;
                signInDetails := flowDetails flow input |}) w1).
Proof.
  intros Hc Hpass H1 Hres Hname Hout%not_elem_of_dom.
  apply passesAssertions_true in Hpass as (c & Hc' & Hok & Hu & Hp).
  assert (c = config) as -> by congruence.
  rewrite (signIn_past_assertions _ _ _ _ Hc Hok Hu Hp).
  unfold tryCatchReturn. rewrite (attempt_challenge _ _ _ _ _ _ H1 Hres).
  unfold returnPromise, getSignInResult. rewrite Hname; simpl.
  by rewrite Hout.
Qed.

(** C5, amended.  A call that fails after its assertions have passed leaves
    the active sign-in state empty whenever the failure is one of the
    initial request, or comes after a response that carried
    [AuthenticationResult] (a rejecting token cache, device-metadata or
    current-user lookup): the [catch] block has cleared the state before
    the error is raised.  A call that fails on one of the assertions
    (configuration, empty username, empty password) leaves the world, the
    active sign-in state included, exactly as it found it. *)
Theorem signIn_failure_and_state flow input w error w' :
  signIn flow input w = (inl error, w') →
  (passesAssertions input w = true →
   (∀ config response w1,
      amplifyConfig w = Some config →
      initialRequest flow input config w = (inr response, w1) →
      response.(AuthenticationResult) ≠ None) →
   signInStore w' = None)
  ∧ (passesAssertions input w = false → w' = w).
Proof.
  intros Hfail. split; intros Hpass.
  - intros Htokens.
    apply passesAssertions_true in Hpass as (c & Hc & Hok & Hu & Hp).
    rewrite (signIn_past_assertions _ _ _ _ Hc Hok Hu Hp) in Hfail.
    eapply guarded_attempt_failure_clears; [exact Hfail|].
    intros response w1. by apply Htokens.
  - destruct (signIn_assertion_fails flow input w Hpass) as [e He].
    congruence.
Qed.

(** *** The retry wrapper *)

(** C4.  Around any flow handler: when the first invocation fails with the
    resource-not-found error name, the device context of the user is
    cleared and the handler is invoked exactly once more, on the cleared
    context; the outcome of the wrapper is the outcome of that second
    invocation, a result if it succeeds and its error if it fails.  In no
    execution does the wrapper invoke the handler more than twice. *)
Theorem retry_exactly_once name handler args user w :
  (∀ error w1,
     callFlow name handler args w = (inl error, w1) →
     isNull error = false →
     errorName error = "ResourceNotFoundException" →
     let cleared :=
       withExt (clearDeviceMetadata user (ext w1))
               (logged [EvClearDeviceMetadata user] w1) in
     ∀ r w2,
       callFlow name handler args cleared = (r, w2) →
       retryOnResourceNotFoundException (callFlow name handler) args user w
       = (r, w2)
       ∧ trace w2 = trace w ++ [EvRequest name args;
                                EvClearDeviceMetadata user;
                                EvRequest name args])
  ∧ (∀ r w',
       retryOnResourceNotFoundException (callFlow name handler) args user w
       = (r, w') →
       length (requests (trace w')) ≤ length (requests (trace w)) + 2).
Proof.
  split.
  - intros error w1 H1 Hnull Hname cleared r w2 H2.
    assert (negb (isNull error)
            && bool_decide (errorName error = "ResourceNotFoundException")
            = true) as Hn.
    { rewrite Hnull; simpl. by apply bool_decide_eq_true. }
    rewrite (retry_second_invocation _ _ _ _ _ _ _ H1 Hn).
    fold cleared. split; [done|].
    apply callFlow_trace in H1, H2. rewrite H2. subst cleared; simpl.
    rewrite H1, <- !app_assoc. reflexivity.
  - intros r w' Hr. unfold requests.
    apply retry_trace in Hr as [-> | ->];
      rewrite omap_app, length_app; simpl; lia.
Qed.

End SignInFacts.

(** * Properties of [resetPassword] *)

Module ResetPasswordFacts.
Import ResetPassword.

(** C10.  [resetPassword] does not validate its username: for every
    request, an empty username included, exactly one request goes to
    [resetPasswordClient], carrying that username.  Whenever the client
    resolves, the result has [isPasswordReset] false and the step
    [CONFIRM_RESET_PASSWORD_WITH_CODE], with the delivery details the
    service sent; no result has [isPasswordReset] true. *)
Theorem resetPassword_sends_request {W : Type}
    (client : ResetPasswordClientInput → W →
              (Thrown + ForgotPasswordCommandOutput) * W)
    (request : ResetPasswordRequest) (w : World) :
  let sent :=
    {| Username := request.(username);
       ClientMetadata :=
         nullish
           (optionalChain (optionalChain request.(options) serviceOptions)
                          clientMetadata)
           (config w).(configClientMetadata) |} in
  clientCalls (resetPassword client request w).2 = clientCalls w ++ [sent]
  ∧ (∀ res s,
       client sent (service w) = (inr res, s) →
       (resetPassword client request w).1
       = inr {| isPasswordReset := false;
                nextStep :=
                  {| resetPasswordStep := CONFIRM_RESET_PASSWORD_WITH_CODE;
                     codeDeliveryDetails :=
                       {| deliveryMedium :=
                            optionalChain res.(CodeDeliveryDetails)
                                          DeliveryMedium;
                          destination :=
                            optionalChain res.(CodeDeliveryDetails)
                                          Destination;
                          attributeName :=
                            optionalChain res.(CodeDeliveryDetails)
                                          AttributeName |} |} |})
  ∧ (∀ out,
       (resetPassword client request w).1 = inr out →
       out.(isPasswordReset) = false
       ∧ out.(nextStep).(resetPasswordStep)
         = CONFIRM_RESET_PASSWORD_WITH_CODE).
Proof.
  intros sent. unfold resetPassword, callResetPasswordClient.
  fold sent. destruct (client sent (service w)) as [[error|res] s] eqn:Hc;
    simpl; (split; [done|split]).
  - intros res s' [=].
  - intros out [=].
  - by intros res' s' [= <- <-].
  - by intros out [= <-].
Qed.

End ResetPasswordFacts.

(** * Scenarios on the scripted service *)

Section Scenarios.
Import Scripted.

(** Tokens on the second invocation, after a stale device record. *)
Lemma signIn_tokens_issued_done_witness :
  ∃ w',
    signIn UserPassword alice
      (configured (Some pending) [inl deviceGone; inr tokensIssued])
    = (inr {| isSignedIn := true;
              nextStep := {| signInStep := "DONE"; stepParameters := ∅ |} |},
       w')
    ∧ signInStore w' = None
    ∧ cacheCalls (trace w') = [handedAlice]
    ∧ ext w' = {| queue := []; devices := ∅; stored := [handedAlice] |}.
Proof.
  pose (w0 := configured (Some pending) [inl deviceGone; inr tokensIssued]).
  pose (w1 := (initialRequest UserPassword alice pool w0).2).
  pose (kept := {| queue := []; devices := ∅; stored := [handedAlice] |}).
  refine (signIn_tokens_issued_done UserPassword alice w0
            pool tokensIssued issued w1 None (ext w1) kept
            {| currentUsername := "alice"; userId := "sub-alice" |} kept
            _ _ _ _ _ _ _);
    reflexivity.
Defined.

(** The initial request resolves with tokens and the cache takes them, but
    [getCurrentUser] then rejects: the call throws instead of returning the
    DONE result. *)
Lemma signIn_tokens_issued_done_counterexample :
  let w0 := configured None [inr tokensIssued] in
  (initialRequest (Env := Fixtures.withoutCurrentUser) CustomSRP alice pool w0).1
  = inr tokensIssued
  ∧ tokensIssued.(AuthenticationResult) = Some issued
  ∧ (signIn (Env := Fixtures.withoutCurrentUser) CustomSRP alice w0).1
    = inl Fixtures.notSignedIn
  ∧ (signIn (Env := Fixtures.withoutCurrentUser) CustomSRP alice w0).1
    ≠ inr {| isSignedIn := true;
             nextStep := {| signInStep := "DONE"; stepParameters := ∅ |} |}.
Proof.
  intros w0.
  assert ((signIn (Env := Fixtures.withoutCurrentUser) CustomSRP alice w0).1
          = inl Fixtures.notSignedIn) as Hthrown by (vm_compute; reflexivity).
  split; [vm_compute; reflexivity|]. split; [reflexivity|].
  split; [exact Hthrown|]. rewrite Hthrown. discriminate.
Qed.

Lemma signIn_challenge_next_step_witness :
  ∃ out w',
    signIn CustomSRP alice (configured None [inr smsChallenge])
    = (inr out, w')
    ∧ out.(isSignedIn) = false
    ∧ out.(nextStep).(signInStep) = "CONFIRM_SIGN_IN_WITH_SMS_CODE"
    ∧ signInStore w'
      = Some {| signInSession := Some "session-1";
                activeUsername := "alice";
                challengeName := Some "SMS_MFA";
                signInDetails := flowDetails CustomSRP alice |}.
Proof.
  pose (w0 := configured None [inr smsChallenge]).
  refine (signIn_challenge_next_step CustomSRP alice w0 pool smsChallenge
            (initialRequest CustomSRP alice pool w0).2
            "SMS_MFA" smsCodeStep _ _ _ _ _ _);
    reflexivity.
Defined.

Lemma signIn_empty_credentials_witness :
  signIn UserPassword blankUsername
    (configured (Some pending) [inr tokensIssued])
  = (inl (AuthValidationError EmptySignInUsername),
     configured (Some pending) [inr tokensIssued])
  ∧ signIn CustomSRP blankPassword (configured None [inr tokensIssued])
    = (inl (AuthValidationError EmptySignInPassword),
       configured None [inr tokensIssued]).
Proof.
  split.
  - apply (signIn_empty_credentials UserPassword blankUsername);
      [by left | reflexivity | reflexivity].
  - apply (signIn_empty_credentials CustomSRP blankPassword);
      [by right | reflexivity | discriminate].
Defined.

(** An empty username with no configuration at all: the first assertion
    decides, not the second. *)
Lemma signIn_empty_credentials_counterexample :
  blankUsername.(username) = ""
  ∧ signIn UserPassword blankUsername (world None None [])
    = (inl AuthTokenConfigException, world None None [])
  ∧ (signIn UserPassword blankUsername (world None None [])).1
    ≠ inl (AuthValidationError EmptySignInUsername).
Proof. split; [reflexivity|split; [reflexivity|discriminate]]. Qed.

(** The device record is gone on the first invocation and the password is
    wrong on the second; a third outcome is queued and never asked for. *)
Lemma retry_exactly_once_witness :
  let w0 :=
    configured None [inl deviceGone; inl notAuthorized; inr tokensIssued] in
  let w2 :=
    {| signInStore := None; amplifyConfig := Some pool;
       ext := {| queue := [inr tokensIssued]; devices := ∅; stored := [] |};
       trace := [EvRequest "USER_PASSWORD_AUTH" aliceArgs;
                 EvClearDeviceMetadata "alice";
                 EvRequest "USER_PASSWORD_AUTH" aliceArgs] |} in
  (retryOnResourceNotFoundException
     (callFlow "USER_PASSWORD_AUTH" handleUserPasswordAuthFlow)
     aliceArgs "alice" w0
   = (inl notAuthorized, w2)
   ∧ trace w2 = trace w0 ++ [EvRequest "USER_PASSWORD_AUTH" aliceArgs;
                             EvClearDeviceMetadata "alice";
                             EvRequest "USER_PASSWORD_AUTH" aliceArgs])
  ∧ length (requests (trace w2)) ≤ length (requests (trace w0)) + 2.
Proof.
  intros w0 w2. split.
  - refine (proj1 (retry_exactly_once "USER_PASSWORD_AUTH"
                     handleUserPasswordAuthFlow aliceArgs "alice" w0)
              deviceGone
              (callFlow "USER_PASSWORD_AUTH" handleUserPasswordAuthFlow
                        aliceArgs w0).2
              _ _ _ (inl notAuthorized) w2 _);
      reflexivity.
  - refine (proj2 (retry_exactly_once "USER_PASSWORD_AUTH"
                     handleUserPasswordAuthFlow aliceArgs "alice" w0)
              (inl notAuthorized) w2 _);
      reflexivity.
Defined.

Lemma signIn_failure_and_state_witness :
  signInStore
    (signIn UserPassword alice (configured (Some pending) [inl notAuthorized])).2
  = None.
Proof.
  pose (w0 := configured (Some pending) [inl notAuthorized]).
  refine (proj1 (signIn_failure_and_state UserPassword alice w0
                   notAuthorized (signIn UserPassword alice w0).2 _) _ _);
    [vm_compute; reflexivity | vm_compute; reflexivity |].
  intros config response w1 Hc H1. vm_compute in Hc. injection Hc as <-.
  vm_compute in H1. discriminate H1.
Defined.

(** A first call stops at the SMS challenge; a second call with an empty
    username fails on validation and the state of the first call is still
    there. *)
Lemma signIn_failure_and_state_counterexample :
  let w1 :=
    (signIn UserPassword alice (configured None [inr smsChallenge])).2 in
  signIn UserPassword blankUsername w1
  = (inl (AuthValidationError EmptySignInUsername), w1)
  ∧ signInStore w1 = Some pending
  ∧ signInStore (signIn UserPassword blankUsername w1).2 ≠ None.
Proof. split; [reflexivity|split; [reflexivity|discriminate]]. Qed.

Lemma signIn_service_error_classified_witness :
  signIn UserPassword alice (configured (Some pending) [inl resetRequired])
  = (inr resetPasswordOutput,
     {| signInStore := None; amplifyConfig := Some pool;
        ext := {| queue := []; devices := {[ "alice" ]}; stored := [] |};
        trace := [EvRequest "USER_PASSWORD_AUTH" aliceArgs] |})
  ∧ signIn CustomSRP alice (configured (Some pending) [inl notAuthorized])
    = (inl notAuthorized,
       {| signInStore := None; amplifyConfig := Some pool;
          ext := {| queue := []; devices := {[ "alice" ]}; stored := [] |};
          trace := [EvRequest "CUSTOM_WITH_SRP" aliceArgs] |}).
Proof.
  split.
  - pose (w0 := configured (Some pending) [inl resetRequired]).
    refine (signIn_service_error_classified UserPassword alice w0 pool
              resetRequired (initialRequest UserPassword alice pool w0).2
              _ _ _ _ _);
      reflexivity.
  - pose (w0 := configured (Some pending) [inl notAuthorized]).
    refine (signIn_service_error_classified CustomSRP alice w0 pool
              notAuthorized (initialRequest CustomSRP alice pool w0).2
              _ _ _ _ _);
      reflexivity.
Defined.

Lemma signIn_unsupported_challenge_fatal_witness :
  signIn UserPassword alice (configured None [inr strayChallenge])
  = (inl (SignInException (Some "EMAIL_OTP")),
     {| signInStore :=
          Some {| signInSession := Some "session-2";
                  activeUsername := "alice";
                  challengeName := Some "EMAIL_OTP";
                  signInDetails := flowDetails UserPassword alice |};
        amplifyConfig := Some pool;
        ext := {| queue := []; devices := {[ "alice" ]}; stored := [] |};
        trace := [EvRequest "USER_PASSWORD_AUTH" aliceArgs] |}).
Proof.
  pose (w0 := configured None [inr strayChallenge]).
  refine (signIn_unsupported_challenge_fatal UserPassword alice w0 pool
            strayChallenge (initialRequest UserPassword alice pool w0).2
            "EMAIL_OTP" _ _ _ _ _ _);
    try reflexivity.
  apply not_elem_of_dom. reflexivity.
Defined.

Lemma signIn_config_error_first_witness :
  signIn UserPassword blankUsername (world None (Some pending) [])
  = (inl AuthTokenConfigException, world None (Some pending) [])
  ∧ signIn CustomSRP blankPassword
      (world (Some {| userPoolId := ""; userPoolClientId := "111111" |})
             None [])
    = (inl AuthTokenConfigException,
       world (Some {| userPoolId := ""; userPoolClientId := "111111" |})
             None []).
Proof.
  split; apply signIn_config_error_first; reflexivity.
Defined.

Lemma resetPassword_sends_request_witness :
  (ResetPassword.resetPassword forgotPassword blankReset resetWorld).1
  = inr {| ResetPassword.isPasswordReset := false;
           ResetPassword.nextStep :=
             {| ResetPassword.resetPasswordStep :=
                  ResetPassword.CONFIRM_RESET_PASSWORD_WITH_CODE;
                ResetPassword.codeDeliveryDetails :=
                  {| ResetPassword.deliveryMedium := Some "EMAIL";
                     ResetPassword.destination := Some "a***@e***.com";
                     ResetPassword.attributeName := Some "email" |} |} |}
  ∧ ResetPassword.clientCalls
      (ResetPassword.resetPassword forgotPassword blankReset resetWorld).2
    = [ {| ResetPassword.Username := "";
           ResetPassword.ClientMetadata := None |} ].
Proof.
  split.
  - refine (proj1 (proj2 (ResetPasswordFacts.resetPassword_sends_request
                            forgotPassword blankReset resetWorld))
              codeSent () _);
      reflexivity.
  - apply (proj1 (ResetPasswordFacts.resetPassword_sends_request
                    forgotPassword blankReset resetWorld)).
Defined.

End Scenarios.

(** * What a sign-in call leaves in the trace and in the store *)

Section SignInTraces.
Context {W : Type} `{Env : CognitoEnv W}.
Implicit Types (w : @World W) (input : SignInInput) (flow : Flow).
Implicit Types (config : CognitoConfig) (error : Thrown).

(** The [catch] block touches nothing but the store. *)
Lemma recover_frame error w r w' :
  recover error w = (r, w') →
  trace w' = trace w ∧ ext w' = ext w ∧ signInStore w' = None.
Proof.
  rewrite recover_outcome. intros Hr.
  destruct (isNull error || negb (isServiceError error));
    [|destruct (getSignInResultFromError (errorName error))];
    by inversion Hr.
Qed.

(** The events of the initial request, entry point by entry point. *)
Lemma initialRequest_events flow input config w r w1 :
  initialRequest flow input config w = (r, w1) →
  ∃ evs,
    trace w1 = trace w ++ evs
    ∧ match flow with
      | UserPassword =>
          evs = [EvRequest "USER_PASSWORD_AUTH" (flowArgs input config)]
          ∨ evs = [EvRequest "USER_PASSWORD_AUTH" (flowArgs input config);
                   EvClearDeviceMetadata input.(username);
                   EvRequest "USER_PASSWORD_AUTH" (flowArgs input config)]
      | CustomSRP =>
          evs = [EvRequest "CUSTOM_WITH_SRP" (flowArgs input config)]
      end.
Proof.
  destruct flow; simpl; intros H1.
  - apply retry_trace in H1 as [-> | ->]; eexists; split; eauto.
  - apply callFlow_trace in H1 as ->. eexists; split; eauto.
Qed.

Ltac run_attempt H :=
  unfold tryCatchReturn, attempt, readActiveSignInUsername,
    setActiveSignInState, callCacheCognitoTokens, cleanActiveSignInState,
    hubDispatchSignedIn, getSignInResult, external, emit, returnValue,
    returnPromise, mbind, M_bind, bind, mret, M_ret, ret, throw in H;
  simpl in H.

(** Every way through the guarded [try] block, told by what it appends to
    the trace after the initial request: nothing; the hand-off to the token
    cache; or the hand-off followed by the [signedIn] event. *)
Lemma guarded_attempt_tail flow input config w r w' :
  tryCatchReturn (attempt flow input config) recover w = (r, w') →
  ∃ r1 w1,
    initialRequest flow input config w = (r1, w1)
    ∧ ((trace w' = trace w1
        ∧ (signInStore w' ≠ None →
           ∃ response, r1 = inr response
                       ∧ response.(AuthenticationResult) = None))
       ∨ (∃ response result device,
            r1 = inr response
            ∧ response.(AuthenticationResult) = Some result
            ∧ signInStore w' = None
            ∧ let handed :=
                {| tokens := result;
                   cachedUsername :=
                     getActiveSignInUsername (signInStore w1) input.(username);
                   cachedDeviceMetadata := device;
                   cachedSignInDetails := flowDetails flow input |} in
              trace w' = trace w1 ++ [EvCacheTokens handed]
              ∨ ∃ user,
                  trace w'
                  = trace w1 ++ [EvCacheTokens handed;
                                 EvHubDispatch "auth" "signedIn" user]
                  ∧ r = inr signedInDone)).
Proof.
  intros H.
  destruct (initialRequest flow input config w) as [[e|response] w1] eqn:H1.
  - exists (inl e), w1. split; [done|]. left.
    unfold tryCatchReturn in H.
    rewrite (attempt_request_fails _ _ _ _ _ _ H1) in H.
    apply recover_frame in H as (Ht & _ & Hs). split; [done|]. by intros [].
  - exists (inr response), w1. split; [done|].
    destruct (AuthenticationResult response) as [result|] eqn:Hres.
    + run_attempt H. rewrite H1 in H; simpl in H. rewrite Hres in H.
      simpl in H.
      destruct (getNewDeviceMetatada _ _ _ (ext w1)) as [[e|device] e2].
      { left. apply recover_frame in H as (Ht & _ & Hs).
        split; [done|]. by intros []. }
      simpl in H.
      destruct (cacheCognitoTokens _ e2) as [[e|[]] e3].
      { right. apply recover_frame in H as (Ht & _ & Hs).
        exists response, result, device. repeat split; try done. by left. }
      simpl in H.
      destruct (getCurrentUser e3) as [[e|user] e4].
      { right. apply recover_frame in H as (Ht & _ & Hs).
        exists response, result, device. repeat split; try done. by left. }
      simpl in H. injection H as <- <-.
      right. exists response, result, device. repeat split; try done.
      right. exists user. simpl. by rewrite <- app_assoc.
    + left. unfold tryCatchReturn in H.
      rewrite (attempt_challenge _ _ _ _ _ _ H1 Hres) in H.
      unfold returnPromise, getSignInResult in H.
      destruct (ChallengeName response ≫= _); unfold ret, throw in H;
        injection H as <- <-; split; [done| |done|]; eauto.
Qed.

(** Every execution of an entry point, told by the events it adds. *)
Lemma signIn_events flow input w r w' evs :
  signIn flow input w = (r, w') →
  trace w' = trace w ++ evs →
  (passesAssertions input w = false ∧ evs = [] ∧ w' = w)
  ∨ ∃ config r1 w1 reqs,
      amplifyConfig w = Some config
      ∧ passesAssertions input w = true
      ∧ initialRequest flow input config w = (r1, w1)
      ∧ match flow with
        | UserPassword =>
            reqs = [EvRequest "USER_PASSWORD_AUTH" (flowArgs input config)]
            ∨ reqs = [EvRequest "USER_PASSWORD_AUTH" (flowArgs input config);
                      EvClearDeviceMetadata input.(username);
                      EvRequest "USER_PASSWORD_AUTH" (flowArgs input config)]
        | CustomSRP =>
            reqs = [EvRequest "CUSTOM_WITH_SRP" (flowArgs input config)]
        end
      ∧ ((evs = reqs
          ∧ (signInStore w' ≠ None →
             ∃ response, r1 = inr response
                         ∧ response.(AuthenticationResult) = None))
         ∨ (∃ response result device,
              r1 = inr response
              ∧ response.(AuthenticationResult) = Some result
              ∧ signInStore w' = None
              ∧ let handed :=
                  {| tokens := result;
                     cachedUsername :=
                       getActiveSignInUsername (signInStore w1)
                                               input.(username);
                     cachedDeviceMetadata := device;
                     cachedSignInDetails := flowDetails flow input |} in
                evs = reqs ++ [EvCacheTokens handed]
                ∨ ∃ user,
                    evs = reqs ++ [EvCacheTokens handed;
                                   EvHubDispatch "auth" "signedIn" user]
                    ∧ r = inr signedInDone)).
Proof.
  intros Hrun Hevs.
  destruct (passesAssertions input w) eqn:Hpass.
  - right.
    destruct (passesAssertions_true _ _ Hpass) as (config & Hc & Hok & Hu & Hp).
    rewrite (signIn_past_assertions _ _ _ _ Hc Hok Hu Hp) in Hrun.
    apply guarded_attempt_tail in Hrun as (r1 & w1 & H1 & Htail).
    destruct (initialRequest_events _ _ _ _ _ _ H1) as (reqs & Hreqs & Hshape).
    exists config, r1, w1, reqs. repeat (split; [done|]).
    rewrite Hreqs in Htail.
    destruct Htail as [[Ht Hs] | (response & result & device & -> & Hres & Hs & Ht)].
    + left. split; [|done]. rewrite Ht in Hevs. by apply app_inv_head in Hevs.
    + right. exists response, result, device. repeat (split; [done|]).
      simpl in *. destruct Ht as [Ht | (user & Ht & ->)].
      * left. rewrite Ht, <- app_assoc in Hevs. by apply app_inv_head in Hevs.
      * right. exists user. split; [|done].
        rewrite Ht, <- app_assoc in Hevs. by apply app_inv_head in Hevs.
  - left. destruct (signIn_assertion_fails flow input w Hpass) as [e He].
    rewrite He in Hrun. injection Hrun as <- <-.
    split; [done|]. split; [|done].
    rewrite <- (app_nil_r (trace w)) in Hevs at 1.
    by apply app_inv_head in Hevs.
Qed.

Ltac events_cases H :=
  destruct H as
    [(_ & -> & _)
    |(config & r1 & w1 & reqs & Hc & Hpass' & H1 & Hshape
      & [[-> Hs]
        |(response & result & device & -> & Hres & Hs
          & [-> | (user & -> & ->)])])].

(** X1.  The [signedIn] event goes to the Hub at most once per call, and
    only from a call that returns the DONE result; by then the tokens have
    been handed to the cache exactly once and the active sign-in state is
    empty.  A call that throws, or that returns a continuation, dispatches
    nothing. *)
Theorem signedIn_dispatched_only_when_done flow input w r w' evs :
  signIn flow input w = (r, w') →
  trace w' = trace w ++ evs →
  length (dispatches evs) ≤ 1
  ∧ (dispatches evs ≠ [] →
     r = inr signedInDone
     ∧ signInStore w' = None
     ∧ length (cacheCalls evs) = 1).
Proof.
  intros Hrun Hevs.
  pose proof (signIn_events _ _ _ _ _ _ Hrun Hevs) as H.
  events_cases H;
    try (destruct flow; [destruct Hshape as [-> | ->] | subst reqs]);
    simpl; (split; [lia|]); done.
Qed.

(** X2.  The token cache is invoked at most once per call, and never unless
    the initial request resolved with [AuthenticationResult]: what it is
    handed then are those tokens, under the active username and with the
    sign-in details of this call. *)
Theorem tokens_cached_only_when_issued flow input w r w' evs :
  signIn flow input w = (r, w') →
  trace w' = trace w ++ evs →
  length (cacheCalls evs) ≤ 1
  ∧ ∀ handed,
      handed ∈ cacheCalls evs →
      ∃ config response w1 result,
        amplifyConfig w = Some config
        ∧ initialRequest flow input config w = (inr response, w1)
        ∧ response.(AuthenticationResult) = Some result
        ∧ handed.(tokens) = result
        ∧ handed.(cachedUsername)
          = getActiveSignInUsername (signInStore w1) input.(username)
        ∧ handed.(cachedSignInDetails) = flowDetails flow input.
Proof.
  intros Hrun Hevs.
  pose proof (signIn_events _ _ _ _ _ _ Hrun Hevs) as H.
  events_cases H;
    try (destruct flow; [destruct Hshape as [-> | ->] | subst reqs]);
    simpl; (split; [lia|]); intros handed Hin;
    try (by apply elem_of_nil in Hin);
    apply list_elem_of_singleton in Hin as ->;
    by exists config, response, w1, result.
Qed.

(** X3.  Once its assertions have passed, a call leaves something in the
    active sign-in state only if its initial request resolved without
    [AuthenticationResult].  After a failed request, and after a response
    that carried tokens, the state is empty whatever the token cache and the
    other collaborators did. *)
Theorem state_left_only_without_tokens flow input w r w' :
  signIn flow input w = (r, w') →
  passesAssertions input w = true →
  signInStore w' ≠ None →
  ∃ config response w1,
    amplifyConfig w = Some config
    ∧ initialRequest flow input config w = (inr response, w1)
    ∧ response.(AuthenticationResult) = None.
Proof.
  intros Hrun Hpass Hstore.
  destruct (passesAssertions_true _ _ Hpass) as (config & Hc & Hok & Hu & Hp).
  rewrite (signIn_past_assertions _ _ _ _ Hc Hok Hu Hp) in Hrun.
  apply guarded_attempt_tail in Hrun as (r1 & w1 & H1 & Htail).
  destruct Htail as [[_ Hs] | (response & result & device & _ & _ & Hs & _)];
    [|done].
  destruct (Hs Hstore) as (response & -> & Hres). by exists config, response, w1.
Qed.

(** X4.  The flow handler is invoked with the credentials exactly as the
    caller gave them ([options?.clientMetadata] included) and with the
    asserted configuration.  A call past its assertions invokes it once and
    clears no device context, or, in the password flow only, invokes it
    twice with the same arguments around one clearing of the device context
    of the caller's username.  [signInWithCustomSRPAuth] never invokes its
    handler a second time. *)
Theorem handler_invocations flow input w r w' evs config :
  signIn flow input w = (r, w') →
  trace w' = trace w ++ evs →
  amplifyConfig w = Some config →
  passesAssertions input w = true →
  (requests evs = [flowArgs input config] ∧ clearings evs = [])
  ∨ (flow = UserPassword
     ∧ requests evs = [flowArgs input config; flowArgs input config]
     ∧ clearings evs = [input.(username)]).
Proof.
  intros Hrun Hevs Hconf Hpass.
  pose proof (signIn_events _ _ _ _ _ _ Hrun Hevs) as H.
  destruct H as [(Hno & _) | H]; [congruence|].
  destruct H as (config' & r1 & w1 & reqs & Hc & _ & H1 & Hshape & Htail).
  assert (config' = config) as -> by congruence.
  assert (requests evs = requests reqs ∧ clearings evs = clearings reqs)
    as [-> ->].
  { destruct Htail as [[-> _] | (response & result & device & _ & _ & _
                                  & [-> | (user & -> & _)])];
      unfold requests, clearings; rewrite ?omap_app; simpl;
      by rewrite ?app_nil_r. }
  destruct flow; [destruct Hshape as [-> | ->] | subst reqs]; simpl; eauto.
Qed.

(** X5.  Tokens that have been handed to the cache stay there when the call
    fails afterwards: if [getCurrentUser] rejects with a service error that
    is not a benign one, the call throws that error, the [signedIn] event is
    not dispatched, the active sign-in state is empty, and the collaborators
    are left as the cache hand-off and the failed lookup left them. *)
Theorem failure_after_caching flow input w config response result w1
    device e2 e3 error e4 :
  amplifyConfig w = Some config →
  passesAssertions input w = true →
  initialRequest flow input config w = (inr response, w1) →
  response.(AuthenticationResult) = Some result →
  getNewDeviceMetatada config.(userPoolId) result.(NewDeviceMetadata)
    result.(AccessToken) (ext w1) = (inr device, e2) →
  let handed :=
    {| tokens := result;
       cachedUsername :=
         getActiveSignInUsername (signInStore w1) input.(username);
       cachedDeviceMetadata := device;
       cachedSignInDetails := flowDetails flow input |} in
  cacheCognitoTokens handed e2 = (inr (), e3) →
  getCurrentUser e3 = (inl error, e4) →
  isNull error = false →
  isServiceError error = true →
  signInErrorSteps !! errorName error = None →
  signIn flow input w
  = (inl error,
     {| signInStore := None; amplifyConfig := amplifyConfig w1; ext := e4;
        trace := trace w1 ++ [EvCacheTokens handed] |}).
Proof.
  intros Hc Hpass H1 Hres Hdev handed Hcache Huser Hnull Hservice Hbenign.
  apply passesAssertions_true in Hpass as (c & Hc' & Hok & Hu & Hp).
  assert (c = config) as -> by congruence.
  rewrite (signIn_past_assertions _ _ _ _ Hc Hok Hu Hp).
  unfold tryCatchReturn.
  assert (attempt flow input config w
          = (inl error,
             {| signInStore := None; amplifyConfig := amplifyConfig w1;
                ext := e4; trace := trace w1 ++ [EvCacheTokens handed] |}))
    as ->.
  { unfold attempt, readActiveSignInUsername, setActiveSignInState,
      callCacheCognitoTokens, cleanActiveSignInState, external, emit,
      mbind, M_bind, bind.
    simpl. rewrite H1; simpl. rewrite Hres; simpl. rewrite Hdev; simpl.
    fold handed. rewrite Hcache; simpl. by rewrite Huser. }
  rewrite recover_outcome, Hnull, Hservice. simpl.
  unfold getSignInResultFromError. by rewrite Hbenign.
Qed.

End SignInTraces.

(** * More on [resetPassword] *)

Module ResetPasswordMore.
Import ResetPassword.

Section Facts.
Context {W : Type}.
Variable client :
  ResetPasswordClientInput → W → (Thrown + ForgotPasswordCommandOutput) * W.
Implicit Types (request : ResetPasswordRequest) (w : @World W).

(** What [resetPassword] sends, whatever comes back. *)
Lemma resetPassword_sent request w :
  ∃ sent,
    clientCalls (resetPassword client request w).2 = clientCalls w ++ [sent]
    ∧ sent.(Username) = request.(username)
    ∧ sent.(ClientMetadata)
      = nullish
          (optionalChain (optionalChain request.(options) serviceOptions)
                         clientMetadata)
          (config w).(configClientMetadata)
    ∧ (resetPassword client request w).1
      = match (client sent (service w)).1 with
        | inl error => inl error
        | inr res =>
            inr {| isPasswordReset := false;
                   nextStep :=
                     {| resetPasswordStep := CONFIRM_RESET_PASSWORD_WITH_CODE;
                        codeDeliveryDetails :=
                          {| deliveryMedium :=
                               optionalChain res.(CodeDeliveryDetails)
                                             DeliveryMedium;
                             destination :=
                               optionalChain res.(CodeDeliveryDetails)
                                             Destination;
                             attributeName :=
                               optionalChain res.(CodeDeliveryDetails)
                                             AttributeName |} |} |}
        end
    ∧ service (resetPassword client request w).2
      = (client sent (service w)).2.
Proof.
  eexists. unfold resetPassword, callResetPasswordClient.
  destruct (client _ (service w)) as [[error|res] s] eqn:Hc; simpl;
    (split; [reflexivity|]); simpl; rewrite Hc; done.
Qed.

(** X6.  [resetPassword] has no error handling of its own: when the client
    rejects, the call throws that very value, a [null] rejection included,
    without wrapping it; it has made the one request and makes no second
    one, and the service is left as the failed request left it. *)
Theorem resetPassword_rejection_propagates request w error s :
  let sent :=
    {| Username := request.(username);
       ClientMetadata :=
         nullish
           (optionalChain (optionalChain request.(options) serviceOptions)
                          clientMetadata)
           (config w).(configClientMetadata) |} in
  client sent (service w) = (inl error, s) →
  resetPassword client request w
  = (inl error,
     {| config := config w; service := s;
        clientCalls := clientCalls w ++ [sent] |}).
Proof.
  intros sent Hc. unfold resetPassword, callResetPasswordClient.
  fold sent. by rewrite Hc.
Qed.

(** X7.  The client metadata of the request: what the caller put under
    [options.serviceOptions.clientMetadata] is sent whenever it is there,
    an empty map included, and the configured [clientMetadata] is sent only
    when [options], [serviceOptions] or [clientMetadata] is missing. *)
Theorem resetPassword_client_metadata request w :
  ∃ sent,
    clientCalls (resetPassword client request w).2 = clientCalls w ++ [sent]
    ∧ sent.(Username) = request.(username)
    ∧ (∀ opts service meta,
         request.(options) = Some opts →
         opts.(serviceOptions) = Some service →
         service.(clientMetadata) = Some meta →
         sent.(ClientMetadata) = Some meta)
    ∧ (request.(options) = None
       ∨ (∃ opts, request.(options) = Some opts
                  ∧ opts.(serviceOptions) = None)
       ∨ (∃ opts service, request.(options) = Some opts
                          ∧ opts.(serviceOptions) = Some service
                          ∧ service.(clientMetadata) = None) →
       sent.(ClientMetadata) = (config w).(configClientMetadata)).
Proof.
  destruct (resetPassword_sent request w) as (sent & Hcalls & Hname & Hmeta & _).
  exists sent. repeat (split; [done|]). split.
  - intros opts so meta Ho Hs Hm. rewrite Hmeta, Ho; simpl.
    rewrite Hs; simpl. by rewrite Hm.
  - intros [Ho | [(opts & Ho & Hs) | (opts & so & Ho & Hs & Hm)]];
      rewrite Hmeta, Ho; simpl; [done| |].
    + by rewrite Hs.
    + rewrite Hs; simpl. by rewrite Hm.
Qed.

(** X8.  The delivery details of the result are passed through from the
    response member by member, with no check against [DeliveryMedium]: a
    member of the result is defined exactly when the response carries
    [CodeDeliveryDetails] with that member.  In particular a response
    without [CodeDeliveryDetails] still gives the confirm step, with
    [deliveryMedium] and [destination] undefined. *)
Theorem resetPassword_delivery_details request w res s :
  let sent :=
    {| Username := request.(username);
       ClientMetadata :=
         nullish
           (optionalChain (optionalChain request.(options) serviceOptions)
                          clientMetadata)
           (config w).(configClientMetadata) |} in
  client sent (service w) = (inr res, s) →
  ∃ out,
    (resetPassword client request w).1 = inr out
    ∧ out.(nextStep).(resetPasswordStep) = CONFIRM_RESET_PASSWORD_WITH_CODE
    ∧ (∀ v, out.(nextStep).(codeDeliveryDetails).(deliveryMedium) = Some v
            ↔ ∃ d, res.(CodeDeliveryDetails) = Some d
                   ∧ d.(DeliveryMedium) = Some v)
    ∧ (∀ v, out.(nextStep).(codeDeliveryDetails).(destination) = Some v
            ↔ ∃ d, res.(CodeDeliveryDetails) = Some d
                   ∧ d.(Destination) = Some v)
    ∧ (∀ v, out.(nextStep).(codeDeliveryDetails).(attributeName) = Some v
            ↔ ∃ d, res.(CodeDeliveryDetails) = Some d
                   ∧ d.(AttributeName) = Some v)
    ∧ (res.(CodeDeliveryDetails) = None →
       out.(nextStep).(codeDeliveryDetails)
       = {| deliveryMedium := None; destination := None;
            attributeName := None |}).
Proof.
  intros sent Hc. unfold resetPassword, callResetPasswordClient.
  fold sent. rewrite Hc. simpl. eexists. split; [reflexivity|]. simpl.
  split; [done|].
  destruct (CodeDeliveryDetails res) as [d|]; simpl;
    repeat split; try done;
    try (intros Hv; by exists d);
    try (by intros (d' & [= <-] & Hv));
    try (by intros (d' & [=] & _)).
Qed.

End Facts.

End ResetPasswordMore.

(** * Properties of [setUpTOTP] *)

Module SetUpTOTPFacts.
Import SetUpTOTP.

Section Facts.
Context {W V Output : Type} `{Collab : Collaborators W V Output}.
Implicit Types (w : World W) (tokens : AuthTokens V).

Ltac run_setup H :=
  unfold setUpTOTP, getCognitoConfig, assertTokenProviderConfig, remote,
    evaluate, mbind, M_bind, bind, mret, M_ret, ret, throw in H;
  simpl in H.

(** Every way through [setUpTOTP]. *)
Lemma setUpTOTP_paths w r w' :
  setUpTOTP w = (r, w') →
  (r = inl AuthTokenConfigException ∧ w' = w
   ∧ (amplifyConfig w = None
      ∨ ∃ config, amplifyConfig w = Some config
                  ∧ tokenProviderConfigOk config = false))
  ∨ ∃ config rs s1,
      amplifyConfig w = Some config
      ∧ tokenProviderConfigOk config = true
      ∧ fetchAuthSession false (service w) = (rs, s1)
      ∧ ((calls w' = calls w ++ [FetchAuthSession false]
          ∧ service w' = s1
          ∧ ∃ error, r = inl error
              ∧ (rs = inl error
                 ∨ (∃ session, rs = inr session
                      ∧ (assertAuthTokens session.(SetUpTOTP.tokens)
                         = Some error
                         ∨ (assertAuthTokens session.(SetUpTOTP.tokens) = None
                            ∧ session.(SetUpTOTP.tokens) = None)
                         ∨ (assertAuthTokens session.(SetUpTOTP.tokens) = None
                            ∧ getRegion config.(userPoolId) = inl error)))))
         ∨ ∃ session tokens region ra s2,
             rs = inr session
             ∧ session.(SetUpTOTP.tokens) = Some tokens
             ∧ assertAuthTokens (Some tokens) = None
             ∧ getRegion config.(userPoolId) = inr region
             ∧ let sent :=
                 ({| region := region;
                     userAgentValue := setUpTOTPUserAgentValue |},
                  {| AccessToken :=
                       tokens.(accessToken).(tokenString) |}) in
               associateSoftwareToken sent.1 sent.2 s1 = (ra, s2)
               ∧ calls w' = calls w ++ [FetchAuthSession false;
                                        AssociateSoftwareToken sent.1 sent.2]
               ∧ service w' = s2
               ∧ r = match ra with
                     | inl error => inl error
                     | inr response =>
                         match response.(SecretCode) with
                         | Some code =>
                             if truthy code
                             then inr (getTOTPSetupDetails code
                                         (stringify (accountClaim tokens)))
                             else inl setUpTOTPFailed
                         | None => inl setUpTOTPFailed
                         end
                     end).
Proof.
  intros H. run_setup H.
  destruct (amplifyConfig w) as [config|] eqn:Hc.
  2: { injection H as <- <-. left. eauto. }
  destruct (tokenProviderConfigOk config) eqn:Hok.
  2: { injection H as <- <-. left. eauto 6. }
  right. simpl in H.
  destruct (fetchAuthSession false (service w)) as [rs s1] eqn:Hf.
  exists config, rs, s1. repeat (split; [done|]).
  destruct rs as [e|session]; simpl in H.
  { injection H as <- <-. left. simpl. eauto 8. }
  destruct (assertAuthTokens (SetUpTOTP.tokens session)) as [e|] eqn:Ha;
    simpl in H.
  { injection H as <- <-. left. simpl. eauto 10. }
  destruct (SetUpTOTP.tokens session) as [tokens|] eqn:Ht; simpl in H.
  2: { injection H as <- <-. left. simpl. repeat (split; [done|]).
       exists typeError. split; [done|]. right. exists session.
       split; [done|]. right. left. by rewrite Ht. }
  destruct (getRegion (userPoolId config)) as [e|region] eqn:Hr; simpl in H.
  { injection H as <- <-. left. simpl. repeat (split; [done|]).
    exists e. split; [done|]. right. exists session. rewrite Ht.
    split; [done|]. right. right. done. }
  destruct (associateSoftwareToken _ _ s1) as [ra s2] eqn:Hassoc.
  right. exists session, tokens, region, ra, s2. rewrite Ht.
  do 4 (split; [done|]). simpl. split; [done|].
  destruct ra as [e|response]; simpl in H.
  { injection H as <- <-. simpl. by rewrite <- app_assoc. }
  unfold accountClaim.
  destruct (SecretCode response) as [code|]; simpl in H.
  - destruct (truthy code); simpl in H; injection H as <- <-; simpl;
      by rewrite <- app_assoc.
  - injection H as <- <-. simpl. by rewrite <- app_assoc.
Qed.

(** X9.  [setUpTOTP] asks for the session at most once, never forcing a
    refresh, and sends [associateSoftwareToken] at most once.  The request is
    only sent when the configuration passed its assertion, the session came
    back with tokens that passed [assertAuthTokens], and the pool id gave a
    region; it then carries that region and the access token of the
    session. *)
Theorem associateSoftwareToken_gated w r w' cs :
  setUpTOTP w = (r, w') →
  calls w' = calls w ++ cs →
  (∀ force, force ∈ sessionFetches cs → force = false)
  ∧ length (sessionFetches cs) ≤ 1
  ∧ length (associations cs) ≤ 1
  ∧ ∀ sent,
      sent ∈ associations cs →
      ∃ config session s1 tokens,
        amplifyConfig w = Some config
        ∧ tokenProviderConfigOk config = true
        ∧ fetchAuthSession false (service w) = (inr session, s1)
        ∧ session.(SetUpTOTP.tokens) = Some tokens
        ∧ assertAuthTokens (Some tokens) = None
        ∧ getRegion config.(userPoolId) = inr sent.1.(region)
        ∧ sent.2.(AccessToken) = tokens.(accessToken).(tokenString).
Proof.
  intros Hrun Hcs.
  destruct (setUpTOTP_paths _ _ _ Hrun)
    as [(_ & -> & _)
       |(config & rs & s1 & Hc & Hok & Hf
         & [(Hcalls & _) | (session & tokens & region & ra & s2 & -> & Ht
                            & Ha & Hr & Hassoc & Hcalls & _)])].
  - rewrite <- (app_nil_r (calls w)) in Hcs at 1.
    apply app_inv_head in Hcs as <-. simpl.
    repeat split; try lia; intros ? Hin; by apply elem_of_nil in Hin.
  - rewrite Hcalls in Hcs. apply app_inv_head in Hcs as <-. simpl.
    repeat split; try lia.
    + by intros ? ->%list_elem_of_singleton.
    + intros ? Hin. by apply elem_of_nil in Hin.
  - simpl in *. rewrite Hcalls in Hcs. apply app_inv_head in Hcs as <-. simpl.
    repeat split; try lia.
    + by intros ? ->%list_elem_of_singleton.
    + intros sent ->%list_elem_of_singleton. simpl.
      by exists config, session, s1, tokens.
Qed.

(** X10.  Once the request has been sent, its outcome decides: a rejection is
    thrown as it is, and a response whose [SecretCode] is missing or empty
    makes the call throw the set-up exception, message
    ['Failed to set up TOTP.']. *)
Theorem setUpTOTP_without_secret_code w r w' sent ra s2 :
  setUpTOTP w = (r, w') →
  sent ∈ associations (drop (length (calls w)) (calls w')) →
  associateSoftwareToken sent.1 sent.2
    (fetchAuthSession false (service w)).2 = (ra, s2) →
  match ra with
  | inl error => r = inl error
  | inr response =>
      response.(SecretCode) = None ∨ response.(SecretCode) = Some "" →
      r = inl (Rejected SETUP_TOTP_EXCEPTION "Failed to set up TOTP.")
  end.
Proof.
  intros Hrun Hin Hassoc.
  destruct (setUpTOTP_paths _ _ _ Hrun)
    as [(_ & -> & _)
       |(config & rs & s1 & Hc & Hok & Hf
         & [(Hcalls & _) | (session & tokens & region & ra' & s2' & -> & Ht
                            & Ha & Hr & Hassoc' & Hcalls & _ & ->)])].
  - rewrite drop_all in Hin. by apply elem_of_nil in Hin.
  - rewrite Hcalls, drop_app_length in Hin. by apply elem_of_nil in Hin.
  - simpl in *. rewrite Hcalls, drop_app_length in Hin. simpl in Hin.
    apply list_elem_of_singleton in Hin as ->. simpl in Hassoc.
    rewrite Hf in Hassoc. simpl in Hassoc.
    rewrite Hassoc' in Hassoc. injection Hassoc as -> ->.
    destruct ra as [error|response]; [done|].
    by intros [-> | ->].
Qed.

(** X11.  [setUpTOTP] returns only what [getTOTPSetupDetails] makes of a
    secret code that is not empty and of the account name
    [JSON.stringify(username)], where [username] is the [cognito:username]
    claim of the id token, or the empty string when there is no id token,
    no such claim, or a [null] claim. *)
Theorem setUpTOTP_result w out w' :
  setUpTOTP w = (inr out, w') →
  ∃ session s1 tokens code,
    fetchAuthSession false (service w) = (inr session, s1)
    ∧ session.(SetUpTOTP.tokens) = Some tokens
    ∧ code ≠ ""
    ∧ ((∃ id claim,
          tokens.(idToken) = Some id
          ∧ id.(payload) !! "cognito:username" = Some claim
          ∧ claim ≠ ClaimNull
          ∧ out = getTOTPSetupDetails code (stringify claim))
       ∨ ((tokens.(idToken) = None
           ∨ ∃ id, tokens.(idToken) = Some id
                   ∧ (id.(payload) !! "cognito:username" = None
                      ∨ id.(payload) !! "cognito:username" = Some ClaimNull))
          ∧ out = getTOTPSetupDetails code (stringify (ClaimString "")))).
Proof.
  intros Hrun.
  destruct (setUpTOTP_paths _ _ _ Hrun)
    as [([=] & _)
       |(config & rs & s1 & Hc & Hok & Hf
         & [(_ & _ & e & [=] & _)
           |(session & tokens & region & ra & s2 & -> & Ht
             & Ha & Hr & Hassoc & Hcalls & _ & Hout)])].
  simpl in *. destruct ra as [e|response]; [done|].
  destruct (SecretCode response) as [code|]; [|done].
  destruct (truthy code) eqn:Hcode; [|done].
  injection Hout as ->.
  exists session, s1, tokens, code. repeat (split; [done|]). split.
  { unfold truthy in Hcode. by apply bool_decide_eq_true in Hcode. }
  unfold accountClaim.
  destruct (idToken tokens) as [id|] eqn:Hid; simpl; [|right; eauto].
  destruct (payload id !! "cognito:username") as [claim|] eqn:Hclaim;
    simpl; [|right; eauto 6].
  destruct claim; simpl.
  - right. eauto 6.
  - left. by exists id, (ClaimString s).
  - left. by exists id, (ClaimOther v).
Qed.

End Facts.

End SetUpTOTPFacts.

(** * Further scenarios *)

Section MoreScenarios.
Import Scripted Fixtures.

Lemma signedIn_dispatched_only_when_done_witness :
  let run :=
    signIn UserPassword alice
      (configured (Some pending) [inl deviceGone; inr tokensIssued]) in
  dispatches (trace run.2)
  = [ {| currentUsername := "alice"; userId := "sub-alice" |} ]
  ∧ run.1 = inr signedInDone
  ∧ signInStore run.2 = None
  ∧ length (cacheCalls (trace run.2)) = 1.
Proof.
  intros run.
  assert (dispatches (trace run.2)
          = [ {| currentUsername := "alice"; userId := "sub-alice" |} ])
    as Hsent by (vm_compute; reflexivity).
  split; [exact Hsent|].
  refine (proj2 (signedIn_dispatched_only_when_done UserPassword alice
                   (configured (Some pending)
                      [inl deviceGone; inr tokensIssued])
                   run.1 run.2 (trace run.2) _ _) _);
    [vm_compute; reflexivity | vm_compute; reflexivity
    | rewrite Hsent; discriminate].
Defined.

Lemma tokens_cached_only_when_issued_witness :
  ∃ config response w1 result,
    amplifyConfig (configured None [inr tokensIssued]) = Some config
    ∧ initialRequest CustomSRP alice config (configured None [inr tokensIssued])
      = (inr response, w1)
    ∧ response.(AuthenticationResult) = Some result
    ∧ tokens {| tokens := issued; cachedUsername := "alice";
                cachedDeviceMetadata := None;
                cachedSignInDetails := flowDetails CustomSRP alice |}
      = result
    ∧ "alice" = getActiveSignInUsername (signInStore w1) alice.(username)
    ∧ flowDetails CustomSRP alice = flowDetails CustomSRP alice.
Proof.
  pose (w0 := configured None [inr tokensIssued]).
  refine (proj2 (tokens_cached_only_when_issued CustomSRP alice w0
                   (signIn CustomSRP alice w0).1 (signIn CustomSRP alice w0).2
                   (trace (signIn CustomSRP alice w0).2) _ _)
            {| tokens := issued; cachedUsername := "alice";
               cachedDeviceMetadata := None;
               cachedSignInDetails := flowDetails CustomSRP alice |} _);
    [reflexivity | reflexivity |].
  by apply list_elem_of_singleton.
Defined.

Lemma state_left_only_without_tokens_witness :
  ∃ config response w1,
    amplifyConfig (configured None [inr smsChallenge]) = Some config
    ∧ initialRequest CustomSRP alice config (configured None [inr smsChallenge])
      = (inr response, w1)
    ∧ response.(AuthenticationResult) = None.
Proof.
  pose (w0 := configured None [inr smsChallenge]).
  refine (state_left_only_without_tokens CustomSRP alice w0
            (signIn CustomSRP alice w0).1 (signIn CustomSRP alice w0).2 _ _ _);
    [reflexivity | reflexivity | discriminate].
Defined.

Lemma handler_invocations_witness :
  let w0 := configured None [inl deviceGone; inr smsChallenge] in
  (requests (trace (signIn UserPassword alice w0).2) = [aliceArgs; aliceArgs]
   ∧ clearings (trace (signIn UserPassword alice w0).2) = ["alice"])
  ∧ requests (trace (signIn CustomSRP alice w0).2) = [aliceArgs]
  ∧ clearings (trace (signIn CustomSRP alice w0).2) = [].
Proof.
  intros w0.
  assert (amplifyConfig w0 = Some pool) as Hconf by reflexivity.
  assert (passesAssertions (Env := env) alice w0 = true) as Hpass
    by (vm_compute; reflexivity).
  split.
  - pose (run := signIn (Env := env) UserPassword alice w0).
    assert (signIn (Env := env) UserPassword alice w0 = (run.1, run.2))
      as Hrun by (vm_compute; reflexivity).
    assert (trace run.2 = trace w0 ++ trace run.2) as Hevs
      by (vm_compute; reflexivity).
    destruct (handler_invocations UserPassword alice w0 run.1 run.2
                (trace run.2) pool Hrun Hevs Hconf Hpass)
      as [[Hone _] | (_ & Htwo & Hclear)].
    + vm_compute in Hone. discriminate Hone.
    + by split.
  - pose (run := signIn (Env := env) CustomSRP alice w0).
    assert (signIn (Env := env) CustomSRP alice w0 = (run.1, run.2))
      as Hrun by (vm_compute; reflexivity).
    assert (trace run.2 = trace w0 ++ trace run.2) as Hevs
      by (vm_compute; reflexivity).
    destruct (handler_invocations CustomSRP alice w0 run.1 run.2
                (trace run.2) pool Hrun Hevs Hconf Hpass)
      as [[Hone Hclear] | (Hflow & _)].
    + by split.
    + discriminate Hflow.
Defined.

Lemma failure_after_caching_witness :
  let w0 := configured (Some pending) [inr tokensIssued] in
  signIn (Env := withoutCurrentUser) UserPassword alice w0
  = (inl notSignedIn,
     {| signInStore := None; amplifyConfig := Some pool;
        ext := {| queue := []; devices := {[ "alice" ]};
                  stored := [handedAlice] |};
        trace := [EvRequest "USER_PASSWORD_AUTH" aliceArgs;
                  EvCacheTokens handedAlice] |}).
Proof.
  intros w0.
  pose (w1 := (initialRequest (Env := withoutCurrentUser)
                 UserPassword alice pool w0).2).
  pose (kept := {| queue := []; devices := {[ "alice" ]};
                   stored := [handedAlice] |}).
  refine (failure_after_caching (Env := withoutCurrentUser)
            UserPassword alice w0 pool tokensIssued issued w1 None (ext w1)
            kept notSignedIn kept _ _ _ _ _ _ _ _ _ _);
    vm_compute; reflexivity.
Defined.

Lemma resetPassword_rejection_propagates_witness :
  ResetPassword.resetPassword rejectingClient (resetFor "alice" None)
    (resetWorld None)
  = (inl throttled,
     {| ResetPassword.config :=
          {| ResetPassword.configClientMetadata := None |};
        ResetPassword.service := 1;
        ResetPassword.clientCalls :=
          [ {| ResetPassword.Username := "alice";
               ResetPassword.ClientMetadata := None |} ] |}).
Proof.
  refine (ResetPasswordMore.resetPassword_rejection_propagates rejectingClient
            (resetFor "alice" None) (resetWorld None) throttled 1 _).
  reflexivity.
Defined.

(** An empty map given by the caller wins over the configured default. *)
Lemma resetPassword_client_metadata_witness :
  ∃ sent,
    ResetPassword.clientCalls
      (ResetPassword.resetPassword silentClient (resetFor "alice" (Some ∅))
         (resetWorld (Some {[ "app" := "web" ]}))).2
    = [sent]
    ∧ sent.(ResetPassword.ClientMetadata) = Some ∅.
Proof.
  destruct (ResetPasswordMore.resetPassword_client_metadata silentClient
              (resetFor "alice" (Some ∅))
              (resetWorld (Some {[ "app" := "web" ]})))
    as (sent & Hcalls & _ & Hgiven & _).
  exists sent. split; [exact Hcalls|].
  exact (Hgiven _ _ ∅ eq_refl eq_refl eq_refl).
Defined.

Lemma resetPassword_delivery_details_witness :
  ∃ out,
    (ResetPassword.resetPassword silentClient (resetFor "alice" None)
       (resetWorld None)).1 = inr out
    ∧ out.(ResetPassword.nextStep).(ResetPassword.codeDeliveryDetails)
      = {| ResetPassword.deliveryMedium := None;
           ResetPassword.destination := None;
           ResetPassword.attributeName := None |}.
Proof.
  destruct (ResetPasswordMore.resetPassword_delivery_details silentClient
              (resetFor "alice" None) (resetWorld None)
              {| ResetPassword.CodeDeliveryDetails := None |} 1 eq_refl)
    as (out & Hout & _ & _ & _ & _ & Hnone).
  exists out. split; [exact Hout|]. exact (Hnone eq_refl).
Defined.

Lemma associateSoftwareToken_gated_witness :
  let collab :=
    totp (sessionOf
            (signedInAs
               {[ "cognito:username" := SetUpTOTP.ClaimString "alice" ]}))
         (secret (Some "JBSWY3DPEHPK3PXP")) in
  let run := SetUpTOTP.setUpTOTP (Collab := collab) (totpWorld (Some pool)) in
  let sent :=
    ({| SetUpTOTP.region := "us-west-2";
        SetUpTOTP.userAgentValue := "aws-amplify/6.0.0 auth/8" |},
     {| SetUpTOTP.AccessToken := "access.jwt" |}) in
  SetUpTOTP.associations (SetUpTOTP.calls run.2) = [sent]
  ∧ ∃ config session s1 tokens,
      SetUpTOTP.amplifyConfig (totpWorld (Some pool)) = Some config
      ∧ SetUpTOTP.tokenProviderConfigOk config = true
      ∧ SetUpTOTP.fetchAuthSession false 0 = (inr session, s1)
      ∧ session.(SetUpTOTP.tokens) = Some tokens
      ∧ SetUpTOTP.assertAuthTokens (Some tokens) = None
      ∧ SetUpTOTP.getRegion config.(userPoolId) = inr "us-west-2"
      ∧ "access.jwt"
        = tokens.(SetUpTOTP.accessToken).(SetUpTOTP.tokenString).
Proof.
  intros collab run sent.
  assert (SetUpTOTP.associations (SetUpTOTP.calls run.2) = [sent]) as Hsent
    by (vm_compute; reflexivity).
  split; [exact Hsent|].
  assert (SetUpTOTP.setUpTOTP (Collab := collab) (totpWorld (Some pool))
          = (run.1, run.2)) as Hrun by (vm_compute; reflexivity).
  assert (SetUpTOTP.calls run.2
          = SetUpTOTP.calls (totpWorld (Some pool)) ++ SetUpTOTP.calls run.2)
    as Hcalls by (vm_compute; reflexivity).
  refine (proj2 (proj2 (proj2
            (SetUpTOTPFacts.associateSoftwareToken_gated (Collab := collab)
               (totpWorld (Some pool)) run.1 run.2 (SetUpTOTP.calls run.2)
               Hrun Hcalls))) sent _).
  rewrite Hsent. by apply list_elem_of_singleton.
Defined.

(** The service answers, but with an empty secret. *)
Lemma setUpTOTP_without_secret_code_witness :
  let collab := totp (sessionOf (signedInAs ∅)) (secret (Some "")) in
  (SetUpTOTP.setUpTOTP (Collab := collab) (totpWorld (Some pool))).1
  = inl (Rejected "SetUpTOTPException" "Failed to set up TOTP.").
Proof.
  intros collab.
  pose (run := SetUpTOTP.setUpTOTP (Collab := collab) (totpWorld (Some pool))).
  pose (sent :=
          ({| SetUpTOTP.region := "us-west-2";
              SetUpTOTP.userAgentValue := "aws-amplify/6.0.0 auth/8" |},
           {| SetUpTOTP.AccessToken := "access.jwt" |})).
  assert (SetUpTOTP.setUpTOTP (Collab := collab) (totpWorld (Some pool))
          = (run.1, run.2)) as Hrun by (vm_compute; reflexivity).
  assert (sent ∈ SetUpTOTP.associations
                   (drop (length (SetUpTOTP.calls (totpWorld (Some pool))))
                         (SetUpTOTP.calls run.2))) as Hin.
  { replace (SetUpTOTP.associations _) with [sent] by (vm_compute; reflexivity).
    by apply list_elem_of_singleton. }
  refine (SetUpTOTPFacts.setUpTOTP_without_secret_code (Collab := collab)
            (totpWorld (Some pool)) run.1 run.2 sent
            (secret (Some "")) 1 Hrun Hin _ _).
  - vm_compute; reflexivity.
  - by right.
Defined.

(** An id token without the [cognito:username] claim: the account name is
    the JSON text of the empty string. *)
Lemma setUpTOTP_result_witness :
  let collab :=
    totp (sessionOf (signedInAs ∅)) (secret (Some "JBSWY3DPEHPK3PXP")) in
  ∃ session s1 tokens code,
    SetUpTOTP.fetchAuthSession false 0 = (inr session, s1)
    ∧ session.(SetUpTOTP.tokens) = Some tokens
    ∧ code ≠ ""
    ∧ ((∃ id claim,
          tokens.(SetUpTOTP.idToken) = Some id
          ∧ id.(SetUpTOTP.payload) !! "cognito:username" = Some claim
          ∧ claim ≠ SetUpTOTP.ClaimNull
          ∧ ("JBSWY3DPEHPK3PXP", quoteMark +:+ quoteMark)
            = SetUpTOTP.getTOTPSetupDetails code (SetUpTOTP.stringify claim))
       ∨ ((tokens.(SetUpTOTP.idToken) = None
           ∨ ∃ id, tokens.(SetUpTOTP.idToken) = Some id
                   ∧ (id.(SetUpTOTP.payload) !! "cognito:username" = None
                      ∨ id.(SetUpTOTP.payload) !! "cognito:username"
                        = Some SetUpTOTP.ClaimNull))
          ∧ ("JBSWY3DPEHPK3PXP", quoteMark +:+ quoteMark)
            = SetUpTOTP.getTOTPSetupDetails code
                (SetUpTOTP.stringify (SetUpTOTP.ClaimString "")))).
Proof.
  intros collab.
  pose (run := SetUpTOTP.setUpTOTP (Collab := collab) (totpWorld (Some pool))).
  assert (SetUpTOTP.setUpTOTP (Collab := collab) (totpWorld (Some pool))
          = (inr ("JBSWY3DPEHPK3PXP", quoteMark +:+ quoteMark), run.2))
    as Hrun by (vm_compute; reflexivity).
  exact (SetUpTOTPFacts.setUpTOTP_result (Collab := collab)
           (totpWorld (Some pool)) _ run.2 Hrun).
Defined.

End MoreScenarios.
